(** * Student Performance Analytics dashboard: the data pipeline of
    [SPADashboard.py], embedded in Rocq.

    The module-level start-up code (column derivation and projection), the
    callback [update_plots] and the figure generator [generate_figures] are
    transcribed below.  pandas objects are kept in an explicit object store,
    so that in-place column assignment and [.copy()] have their Python
    meaning.  Numeric survey columns are integers ([Z]); group means are
    exact rationals ([Q], a missing mean is [None], pandas' NaN). *)

From Stdlib Require Import ZArith QArith Qabs Lqa Lia.
From stdpp Require Import base decidable option list sorting strings.

Local Open Scope string_scope.
Local Open Scope Z_scope.
Local Open Scope list_scope.

(** ** Cells and rows *)

(** The four categories of the ordered categorical built at lines 21-30,
    in category order. *)
Inductive StudyTime := Lt2h | From2to5h | From5to10h | Gt10h.

Definition studytime_label (c : StudyTime) : string :=
  match c with
  | Lt2h => "<2 hours"
  | From2to5h => "2-5 hours"
  | From5to10h => "5-10 hours"
  | Gt10h => ">10 hours"
  end.

Definition categories : list StudyTime := [Lt2h; From2to5h; From5to10h; Gt10h].

(** Position of a category in [categories] (the code of the categorical). *)
Definition studytime_code (c : StudyTime) : Z :=
  match c with
  | Lt2h => 0
  | From2to5h => 1
  | From5to10h => 2
  | Gt10h => 3
  end.

#[global] Instance StudyTime_eq_dec : EqDecision StudyTime.
Proof. solve_decision. Defined.

(** One line of [student-por.csv], restricted to the columns the script
    reads. *)
Module Raw.
Record t := mk {
  sex : string;
  studytime : Z;
  Dalc : Z;
  Walc : Z;
  G3 : Z;
  higher : string;
  internet : string;
  failures : Z;
  freetime : Z;
  traveltime : Z;
  absences : Z
}.
End Raw.

(** One line of [selected_data]: the ten projected columns (lines 44-45).
    A missing [studytime] cell (NaN) is [None]. *)
Record Row := mkRow {
  sex : string;
  studytime : option StudyTime;
  internet : string;
  higher_education : string;
  failures : Z;
  freetime : Z;
  traveltime : Z;
  consumptionlevel : Z;
  absences : Z;
  GPA : Z
}.

#[global] Instance Row_eq_dec : EqDecision Row.
Proof. solve_decision. Defined.


(** ** Column derivation (module top level, lines 21-45) *)

(** [Series.map] with the dictionary of lines 22-27: a key that is not in
    the dictionary maps to NaN. *)
Definition studytime_map (code : Z) : option StudyTime :=
  if code =? 1 then Some Lt2h
  else if code =? 2 then Some From2to5h
  else if code =? 3 then Some From5to10h
  else if code =? 4 then Some Gt10h
  else None.

(** [data[['Dalc', 'Walc']].max(axis=1)], line 33. *)
Definition consumptionlevel_of (r : Raw.t) : Z := Z.max (Raw.Dalc r) (Raw.Walc r).

(** [data['G3'] * 5], line 36. *)
Definition GPA_of (r : Raw.t) : Z := Raw.G3 r * 5.

(** [replace({'F': 'Female', 'M': 'Male'})], line 42: any other value is
    kept. *)
Definition sex_replace (s : string) : string :=
  if String.eqb s "F" then "Female"
  else if String.eqb s "M" then "Male"
  else s.

(** The derived columns of one row, projected on [selected_columns]. *)
Definition derive (r : Raw.t) : Row :=
  {| sex := sex_replace (Raw.sex r);
     studytime := studytime_map (Raw.studytime r);
     internet := Raw.internet r;
     higher_education := Raw.higher r;
     failures := Raw.failures r;
     freetime := Raw.freetime r;
     traveltime := Raw.traveltime r;
     consumptionlevel := consumptionlevel_of r;
     absences := Raw.absences r;
     GPA := GPA_of r |}.

(** ** Data frames and the object store *)

(** The labels given to [pd.cut] at line 111. *)
Inductive Level := Low | Medium | High.

Definition consumption_levels : list Level := [Low; Medium; High].

#[global] Instance Level_eq_dec : EqDecision Level.
Proof. solve_decision. Defined.

(** A row-level data frame: the ten columns of [selected_data] and, once
    line 112 has run on it, the extra column ['consumption_level'] (a NaN
    cell is [None]). *)
Record DataFrame := mkFrame {
  df_rows : list Row;
  df_consumption_level : option (list (option Level))
}.


(** Boolean-mask selection [df[mask]]: a new frame with the rows (and their
    cells of the extra column) at which the predicate holds. *)
Definition select_rows (p : Row → bool) (df : DataFrame) : DataFrame :=
  {| df_rows := List.filter p (df_rows df);
     df_consumption_level :=
       (λ col, (List.filter (λ rc, p rc.1) (zip (df_rows df) col)).*2)
         <$> df_consumption_level df |}.

(** [df['consumption_level'] = col]: adds the column, or overwrites it. *)
Definition set_consumption_level (col : list (option Level)) (df : DataFrame) : DataFrame :=
  {| df_rows := df_rows df; df_consumption_level := Some col |}.

(** One line of [grouped_data] (lines 340-345): the four keys and the four
    means. *)
Record GroupedRow := mkGrouped {
  g_sex : string;
  g_studytime : StudyTime;
  g_internet : string;
  g_higher_education : string;
  g_consumptionlevel : option Q;
  g_failures : option Q;
  g_absences : option Q;
  g_GPA : option Q
}.

(** Objects the script allocates, and the store that holds them.  A
    reference is a position in the store; a new object goes to the end. *)
Inductive Obj :=
  | ObjFrame (df : DataFrame)
  | ObjGrouped (g : list GroupedRow).

Abbreviation ref := nat.
Abbreviation Store := (list Obj).

Inductive Exn :=
  | ValueError (msg : string)
  | KeyError (msg : string).

Inductive Res (A : Type) :=
  | Ok (a : A)
  | Raise (e : Exn).
Arguments Ok {A} a.
Arguments Raise {A} e.

(** Computations that read and write the store and may raise; what was
    written before an exception stays written. *)
Definition M (A : Type) : Type := Store → Res A * Store.

Definition ret {A} (a : A) : M A := λ σ, (Ok a, σ).

Definition bind {A B} (m : M A) (k : A → M B) : M B :=
  λ σ, match m σ with
       | (Ok a, σ') => k a σ'
       | (Raise e, σ') => (Raise e, σ')
       end.

Definition raise {A} (e : Exn) : M A := λ σ, (Raise e, σ).

Notation "'let*' x ':=' m 'in' k" := (bind m (λ x, k))
  (at level 10, x name, m at level 100, k at level 200, only parsing).

Definition alloc (o : Obj) : M ref := λ σ, (Ok (length σ), σ ++ [o]).

Definition read_frame (r : ref) : M DataFrame :=
  λ σ, match σ !! r with
       | Some (ObjFrame df) => (Ok df, σ)
       | _ => (Raise (KeyError "sex"), σ)
       end.

Definition read_grouped (r : ref) : M (list GroupedRow) :=
  λ σ, match σ !! r with
       | Some (ObjGrouped g) => (Ok g, σ)
       | _ => (Raise (KeyError "consumptionlevel"), σ)
       end.

Definition write_frame (r : ref) (df : DataFrame) : M unit :=
  λ σ, (Ok tt, <[r := ObjFrame df]> σ).

(** [df.copy()]: a new object with the same contents. *)
Definition copy (r : ref) : M ref :=
  let* df := read_frame r in alloc (ObjFrame df).

(** [df[mask]] for the mask [df['sex'] == v] of line 337. *)
Definition getitem_mask (r : ref) (p : Row → bool) : M ref :=
  let* df := read_frame r in alloc (ObjFrame (select_rows p df)).

(** ** Grouping and aggregation *)

(** ['mean'] of an integer column: NaN on an empty group. *)
Definition mean (l : list Z) : option Q :=
  match l with
  | [] => None
  | _ => Some (Qred (inject_Z (foldr Z.add 0 l) / inject_Z (Z.of_nat (length l))))
  end.

Section groupby.
Context {K : Type} `{EqDecision K}.
(** The order in which pandas sorts the group keys. *)
Variable key_leb : K → K → bool.
(** The key of a row; [None] when one of its key cells is NaN. *)
Variable key_of : Row → option K.

(** The keys of the groups.  Rows with a NaN key are dropped (the default
    [dropna=True]).  With [observed=True], or when no key is categorical,
    the keys are the distinct keys of the rows, sorted.  With
    [observed=False] (the default of [groupby] when the argument is not
    passed) and a categorical key, every category is a key, observed or
    not; [cats] lists them then. *)
Definition group_keys (observed : bool) (cats : option (list K)) (rows : list Row) : list K :=
  match observed, cats with
  | false, Some all => all
  | _, _ => merge_sort (λ a b, key_leb a b) (remove_dups (omap key_of rows))
  end.

Definition group_rows (k : K) (rows : list Row) : list Row :=
  List.filter (λ r, bool_decide (key_of r = Some k)) rows.

Definition groupby (observed : bool) (cats : option (list K)) (rows : list Row)
  : list (K * list Row) :=
  (λ k, (k, group_rows k rows)) <$> group_keys observed cats rows.
End groupby.

Definition lex (c : comparison) (rest : bool) : bool :=
  match c with
  | Lt => true
  | Eq => rest
  | Gt => false
  end.

Definition studytime_leb (a b : StudyTime) : bool := studytime_code a <=? studytime_code b.

(** The keys of [grouped_data]: (sex, studytime, internet, higher education). *)
Definition Key4 : Type := string * StudyTime * string * string.

Definition key4 (r : Row) : option Key4 :=
  match studytime r with
  | Some c => Some (sex r, c, internet r, higher_education r)
  | None => None
  end.

Definition key4_leb (a b : Key4) : bool :=
  let '(s1, c1, i1, h1) := a in
  let '(s2, c2, i2, h2) := b in
  lex (String.compare s1 s2)
    (lex (studytime_code c1 ?= studytime_code c2)
       (lex (String.compare i1 i2) (String.leb h1 h2))).

(** Lines 340-345: [groupby([...], observed=True).agg({... 'mean'}).reset_index()]. *)
Definition grouped_of (rows : list Row) : list GroupedRow :=
  (λ kg : Key4 * list Row,
     let '((s, c, i, h), g) := kg in
     {| g_sex := s; g_studytime := c; g_internet := i; g_higher_education := h;
        g_consumptionlevel := mean (consumptionlevel <$> g);
        g_failures := mean (failures <$> g);
        g_absences := mean (absences <$> g);
        g_GPA := mean (GPA <$> g) |})
  <$> groupby key4_leb key4 true None rows.

(** Line 68: [groupby(['studytime','internet'], observed=True)['GPA'].mean()]. *)
Definition key_sun (r : Row) : option (StudyTime * string) :=
  match studytime r with
  | Some c => Some (c, internet r)
  | None => None
  end.

Definition key_sun_leb (a b : StudyTime * string) : bool :=
  lex (studytime_code a.1 ?= studytime_code b.1) (String.leb a.2 b.2).

Definition grouped_sun (rows : list Row) : list (StudyTime * string * option Q) :=
  (λ kg : (StudyTime * string) * list Row, (kg.1, mean (GPA <$> kg.2)))
  <$> groupby key_sun_leb key_sun true None rows.

(** Lines 141-148: [groupby('studytime')] without [observed], on the
    categorical column, then [sort_values('studytime')]. *)
Definition studytime_gpa (rows : list Row) : list (StudyTime * option Q) :=
  merge_sort (λ a b : StudyTime * option Q, studytime_leb a.1 b.1)
    ((λ kg : StudyTime * list Row, (kg.1, mean (GPA <$> kg.2)))
     <$> groupby studytime_leb studytime false (Some categories) rows).

(** Line 168: [groupby('sex').agg({'consumptionlevel': 'mean', 'GPA': 'mean'})];
    [sex] is a column of strings, not a categorical. *)
Definition gender_groups (rows : list Row) : list (string * option Q * option Q) :=
  (λ kg : string * list Row,
     (kg.1, mean (consumptionlevel <$> kg.2), mean (GPA <$> kg.2)))
  <$> groupby String.leb (λ r, Some (sex r)) false None rows.

(** ** [pd.cut] with a number of bins (lines 112-117)

    The bin edges are exact rationals.  On integer columns the edges that
    fall on an integer are computed exactly by float64 as well (the step is
    then an integer), and the others stay a third away from every integer,
    so the labels are those pandas returns. *)

Definition Qltb (a b : Q) : bool := negb (Qle_bool b a).

(** [np.linspace(start, stop, num)], end point included. *)
Definition linspace (start stop : Q) (num : nat) : list Q :=
  (λ k : nat,
     (start + inject_Z (Z.of_nat k) * ((stop - start) / inject_Z (Z.of_nat num - 1)))%Q)
  <$> seq 0 num.

Definition widen (v : Q) : Q :=
  if Qeq_bool v 0 then (1 # 1000)%Q else ((1 # 1000) * Qabs v)%Q.

(** The bin edges pandas derives from the data when [bins] is a number:
    [nbins] equal-width bins between the smallest and the largest value of
    the column, the first edge moved down by 0.1% of the range ([right=True]). *)
Definition nbins_to_bins (x : list Z) (nbins : nat) : Res (list Q) :=
  if (nbins <? 1)%nat then Raise (ValueError "`bins` should be a positive integer.")
  else
    match x with
    | [] => Raise (ValueError "Cannot cut empty array")
    | x0 :: xs =>
        let mn := foldr Z.min x0 xs in
        let mx := foldr Z.max x0 xs in
        if mn =? mx then
          Ok (linspace (inject_Z mn - widen (inject_Z mn))
                       (inject_Z mx + widen (inject_Z mx)) (S nbins))
        else
          let adj := ((inject_Z mx - inject_Z mn) * (1 # 1000))%Q in
          match linspace (inject_Z mn) (inject_Z mx) (S nbins) with
          | b0 :: bs => Ok ((b0 - adj)%Q :: bs)
          | [] => Ok []
          end
    end.

(** [bins.searchsorted(v, side='left')]: the number of edges below [v]. *)
Fixpoint searchsorted_left (bins : list Q) (v : Q) : nat :=
  match bins with
  | [] => 0
  | b :: bs => if Qltb b v then S (searchsorted_left bs v) else 0
  end.

(** The label of one value: position [ids] among the edges, set to 1 on the
    first edge when [include_lowest], NaN outside the edges. *)
Definition cut_one (bins : list Q) (labels : list Level) (include_lowest : bool) (v : Z)
  : option Level :=
  let ids := searchsorted_left bins (inject_Z v) in
  let ids :=
    match bins with
    | b0 :: _ => if include_lowest && Qeq_bool (inject_Z v) b0 then 1%nat else ids
    | [] => ids
    end in
  if (ids =? length bins)%nat || (ids =? 0)%nat then None
  else labels !! (ids - 1)%nat.

Definition cut (x : list Z) (nbins : nat) (labels : list Level) (include_lowest : bool)
  : Res (list (option Level)) :=
  match nbins_to_bins x nbins with
  | Ok bins => Ok (cut_one bins labels include_lowest <$> x)
  | Raise e => Raise e
  end.

Definition lift {A} (r : Res A) : M A := λ σ, (r, σ).

(** ** Figures *)

(** What each chart is drawn from. *)
Inductive Trace :=
  | SunburstData (path_value : list (StudyTime * string * option Q))
  | ScatterData (x_y_size : list (option Q * option Q * option Q))
  | BoxData (x_y : list (option Level * Z))
  | LineData (x_y : list (StudyTime * option Q))
  | BarData (x_y_hover : list (string * option Q * option Q))
  | HistogramData (x : list Z) (nbins : Z)
  | ViolinData (x_y : list (string * Z)).

Record Figure := mkFigure {
  fig_data : Trace;
  fig_title : string;
  fig_template : option string;
  fig_width : Z;
  fig_height : Z
}.

(** The dictionary returned at lines 228-236. *)
Record Figures := mkFigures {
  sunburst : Figure;
  scatter : Figure;
  box : Figure;
  line : Figure;
  bar : Figure;
  hist : Figure;
  violin : Figure
}.

(** [generate_figures(filtered_data, grouped_data)], lines 50-236.  Both
    arguments are references: line 112 assigns a column of the frame it was
    given. *)
Definition generate_figures (filtered_data grouped_data : ref) : M Figures :=
  let* fd := read_frame filtered_data in
  let fig_sunburst :=
    {| fig_data := SunburstData (grouped_sun (df_rows fd));
       fig_title := "Academic Performance (GPA) by Study Time and Internet Access";
       fig_template := None; fig_width := 800; fig_height := 600 |} in
  let* gd := read_grouped grouped_data in
  let fig_scatter :=
    {| fig_data := ScatterData ((λ g, (g_consumptionlevel g, g_GPA g, g_absences g)) <$> gd);
       fig_title := "Student Alcohol Consumption vs. GPA with Linear Regression";
       fig_template := Some "plotly_white"; fig_width := 800; fig_height := 600 |} in
  let* col := lift (cut (consumptionlevel <$> df_rows fd) 3 consumption_levels true) in
  let* _ := write_frame filtered_data (set_consumption_level col fd) in
  let* fd := read_frame filtered_data in
  let fig_box :=
    {| fig_data := BoxData (zip (default [] (df_consumption_level fd)) (GPA <$> df_rows fd));
       fig_title := "GPA Distribution by Alcohol Consumption Level";
       fig_template := Some "plotly_white"; fig_width := 800; fig_height := 600 |} in
  let fig_line :=
    {| fig_data := LineData (studytime_gpa (df_rows fd));
       fig_title := "Trend of Academic Performance Across Study Time";
       fig_template := Some "plotly_white"; fig_width := 800; fig_height := 600 |} in
  let fig_bar :=
    {| fig_data := BarData (gender_groups (df_rows fd));
       fig_title := "Mean Student Alcohol Consumption by Gender";
       fig_template := Some "plotly_dark"; fig_width := 800; fig_height := 600 |} in
  let fig_hist :=
    {| fig_data := HistogramData (absences <$> df_rows fd) 10;
       fig_title := "Distribution of Student Absences";
       fig_template := Some "plotly_dark"; fig_width := 800; fig_height := 600 |} in
  let fig_violin :=
    {| fig_data := ViolinData ((λ r, (higher_education r, GPA r)) <$> df_rows fd);
       fig_title := "Distribution of GPA by Higher Education Aspirations";
       fig_template := Some "plotly_white"; fig_width := 1000; fig_height := 600 |} in
  ret {| sunburst := fig_sunburst; scatter := fig_scatter; box := fig_box;
         line := fig_line; bar := fig_bar; hist := fig_hist; violin := fig_violin |}.

(** ** The callback *)

(** The module-level name [selected_data]: the first object of the store. *)
Definition selected_data : ref := 0%nat.

(** Lines 19-45: the store after start-up holds the projected copy of the
    derived table. *)
Definition startup (data : list Raw.t) : M ref :=
  alloc (ObjFrame {| df_rows := derive <$> data; df_consumption_level := None |}).

(** Lines 333-345 of [update_plots]: the filtered copy and its grouping. *)
Definition filter_and_group (selected_gender : string) : M (ref * ref) :=
  let* filtered_data :=
    (if String.eqb selected_gender "All" then copy selected_data
     else
       let* masked := getitem_mask selected_data (λ r, String.eqb (sex r) selected_gender) in
       copy masked) in
  let* fd := read_frame filtered_data in
  let* grouped_data := alloc (ObjGrouped (grouped_of (df_rows fd))) in
  ret (filtered_data, grouped_data).

(** [update_plots(selected_gender)], lines 324-351. *)
Definition update_plots (selected_gender : string)
  : M (Figure * Figure * Figure * Figure * Figure * Figure * Figure) :=
  let* tables := filter_and_group selected_gender in
  let* figs := generate_figures tables.1 tables.2 in
  ret (sunburst figs, scatter figs, box figs, line figs, bar figs, hist figs, violin figs).

(** A sequence of control events, each run to completion (or to its
    exception) before the next. *)
Fixpoint events (selections : list string) (σ : Store) : Store :=
  match selections with
  | [] => σ
  | s :: rest => events rest (update_plots s σ).2
  end.

(** ** Observations used in the statements *)

(** The frame a reference points to. *)
Definition frame_at (σ : Store) (r : ref) : option DataFrame :=
  match σ !! r with
  | Some (ObjFrame df) => Some df
  | _ => None
  end.

Definition grouped_at (σ : Store) (r : ref) : option (list GroupedRow) :=
  match σ !! r with
  | Some (ObjGrouped g) => Some g
  | _ => None
  end.

(** The FilteredTable and the GroupedTable that [filter_and_group] leaves in
    the store, when it returns. *)
Definition filtered_table (selection : string) (σ : Store) : option DataFrame :=
  match filter_and_group selection σ with
  | (Ok (fr, _), σ') => frame_at σ' fr
  | (Raise _, _) => None
  end.

Definition grouped_table (selection : string) (σ : Store) : option (list GroupedRow) :=
  match filter_and_group selection σ with
  | (Ok (_, gr), σ') => grouped_at σ' gr
  | (Raise _, _) => None
  end.

(** The selection as a row filter. *)
Definition selects (selection : string) (r : Row) : bool :=
  String.eqb (sex r) selection.

Definition filtered_of (selection : string) (wt : DataFrame) : DataFrame :=
  if String.eqb selection "All" then wt else select_rows (selects selection) wt.

(** Number of rows whose [sex] cell is [v]. *)
Definition count_sex (v : string) (rows : list Row) : nat :=
  count_occ String.string_dec (sex <$> rows) v.

(** The key cells of a row as they stand in the table, a NaN included. *)
Definition key_cells (r : Row) : string * option StudyTime * string * string :=
  (sex r, studytime r, internet r, higher_education r).

Definition g_key (g : GroupedRow) : Key4 :=
  (g_sex g, g_studytime g, g_internet g, g_higher_education g).

(** Smallest and largest value of a non-empty column. *)
Definition col_min (x0 : Z) (xs : list Z) : Z := foldr Z.min x0 xs.
Definition col_max (x0 : Z) (xs : list Z) : Z := foldr Z.max x0 xs.

(** Three equal-width bins over the interval [[mn, mx]], the first one
    closed on the left: a value in the first third is [Low], in the second
    [Medium], above [High]; a degenerate interval has everything in the
    middle bin. *)
Definition equal_width_bin (mn mx v : Z) : Level :=
  if mn =? mx then Medium
  else if 3 * (v - mn) <=? mx - mn then Low
  else if 3 * (v - mn) <=? 2 * (mx - mn) then Medium
  else High.

(** Modelled from the spec: the binning the specification describes, three
    equal-width bins over the fixed rating range 1-5 whatever the table. *)
Definition fixed_range_bin (v : Z) : Level := equal_width_bin 1 5 v.

(** Position of a label in [consumption_levels] (the code of the ordered
    categorical [pd.cut] returns). *)
Definition level_code (l : Level) : Z :=
  match l with
  | Low => 0
  | Medium => 1
  | High => 2
  end.

(** ** The page layout and the callback wiring (lines 241-323) *)

#[local] Unset Elimination Schemes.

(** The components the layout is built from. *)
Inductive Component :=
  | Container (children : list Component) (fluid : bool)
  | DbcRow (children : list Component)
  | Col (children : list Component) (width : Z)
  | H1 (text className : string)
  | H2 (text className : string)
  | Label (text : string)
  | Br
  | P (text : string)
  | Dropdown (id : string) (options : list (string * string)) (value : string)
      (clearable : bool)
  | Graph (id : string).

#[local] Set Elimination Schemes.

(** [app.layout], lines 244-307; an option is (label, value). *)
Definition app_layout : Component :=
  Container
    [DbcRow
       [Col [H1 "Student Performance Analytics Dashboard:" "text-center mb-4"] 12;
        Col [H2 "Portuguese Language Course" "text-center mb-4"] 12];
     DbcRow
       [Col
          [Label "Select Gender:";
           Dropdown "gender-filter"
             [("All", "All"); ("Male", "Male"); ("Female", "Female")] "All" false;
           Br;
           P "Use the dropdown to filter the data by gender. The charts will update accordingly."]
          12];
     DbcRow [Col [Graph "sunburst-plot"] 12];
     DbcRow [Col [Graph "scatter-plot"] 12];
     DbcRow [Col [Graph "box-plot"] 12];
     DbcRow [Col [Graph "line-chart"] 12];
     DbcRow [Col [Graph "bar-chart"] 12];
     DbcRow [Col [Graph "hist-plot"] 12];
     DbcRow [Col [Graph "violin-plot"] 12]]
    true.

(** The [Output]s and the [Input] of the decorator, lines 312-323, as
    (component id, property). *)
Definition callback_outputs : list (string * string) :=
  [("sunburst-plot", "figure"); ("scatter-plot", "figure"); ("box-plot", "figure");
   ("line-chart", "figure"); ("bar-chart", "figure"); ("hist-plot", "figure");
   ("violin-plot", "figure")].

Definition callback_input : string * string := ("gender-filter", "value").

(** The ids of the graphs of a component tree, in document order. *)
Fixpoint graph_ids (c : Component) : list string :=
  match c with
  | Container cs _ | DbcRow cs | Col cs _ => concat (List.map graph_ids cs)
  | Graph id => [id]
  | _ => []
  end.

(** The dropdowns of a component tree: id, option values, initial value. *)
Fixpoint dropdowns (c : Component) : list (string * list string * string) :=
  match c with
  | Container cs _ | DbcRow cs | Col cs _ => concat (List.map dropdowns cs)
  | Dropdown id options value _ => [(id, options.*2, value)]
  | _ => []
  end.

(** The key of the dictionary of lines 228-236 under which a figure drawn
    from such a trace is returned. *)
Definition trace_kind (t : Trace) : string :=
  match t with
  | SunburstData _ => "sunburst"
  | ScatterData _ => "scatter"
  | BoxData _ => "box"
  | LineData _ => "line"
  | BarData _ => "bar"
  | HistogramData _ _ => "hist"
  | ViolinData _ => "violin"
  end.

(** The tuple [update_plots] returns, as a list. *)
Definition returned_figures
    (t : Figure * Figure * Figure * Figure * Figure * Figure * Figure) : list Figure :=
  let '(a, b, c, d, e, f, g) := t in [a; b; c; d; e; f; g].

(** ** Sample inputs *)

Definition sample_raw : Raw.t :=
  Raw.mk "F" 2 1 3 14 "yes" "no" 0 3 1 4.

Definition sample_raw_male : Raw.t :=
  Raw.mk "M" 1 2 2 11 "no" "yes" 1 2 2 6.

(** A line whose study-time code is not one of 1-4. *)
Definition sample_raw_code5 : Raw.t :=
  Raw.mk "F" 5 1 5 12 "yes" "yes" 0 4 1 2.

(** The store after start-up on a three-line file, and the table it holds. *)
Definition sample_store : Store :=
  (startup [sample_raw; sample_raw_male; sample_raw_code5] []).2.

Definition sample_working_table : DataFrame :=
  {| df_rows := derive <$> [sample_raw; sample_raw_male; sample_raw_code5];
     df_consumption_level := None |}.

(** A row of the Working Table with consumption level [c]. *)
Definition level_row (c : Z) : Row :=
  mkRow "Female" (Some Lt2h) "yes" "yes" 0 3 1 c 4 60.

(** The store once the engine has run for "All" on [sample_store]: the
    FilteredTable is object 1, the GroupedTable object 2. *)
Definition sample_engine_store : Store :=
  (filter_and_group "All" sample_store).2.

(** ** Column derivation *)

Lemma startup_empty data :
  startup data [] =
    (Ok selected_data, [ObjFrame {| df_rows := derive <$> data; df_consumption_level := None |}]).
Proof. reflexivity. Qed.

Lemma derive_lookup (data : list Raw.t) i raw :
  data !! i = Some raw → (derive <$> data) !! i = Some (derive raw).
Proof. intros Hi. by rewrite list_lookup_fmap, Hi. Qed.

Lemma studytime_map_inside code :
  1 ≤ code ≤ 4 → ∃ c, studytime_map code = Some c ∧ studytime_code c = code - 1.
Proof.
  intros Hc. assert (code = 1 ∨ code = 2 ∨ code = 3 ∨ code = 4) as Hcases by lia.
  destruct Hcases as [-> | [-> | [-> | ->]]]; eexists; (split; [reflexivity | reflexivity]).
Qed.

Lemma studytime_map_outside code :
  code < 1 ∨ 4 < code → studytime_map code = None.
Proof.
  intros Hc. unfold studytime_map.
  destruct (Z.eqb_spec code 1); [lia |]. destruct (Z.eqb_spec code 2); [lia |].
  destruct (Z.eqb_spec code 3); [lia |]. destruct (Z.eqb_spec code 4); [lia |].
  reflexivity.
Qed.



(** C10. Every row of the table built at start-up has [consumptionlevel]
    equal to the larger of [Dalc] and [Walc], and ratings between 1 and 5
    give a level between 1 and 5. *)
Theorem consumptionlevel_is_max (data : list Raw.t) (i : nat) (raw : Raw.t) :
  data !! i = Some raw →
  ∃ wt row,
    startup data [] = (Ok selected_data, [ObjFrame wt]) ∧
    df_rows wt !! i = Some row ∧
    consumptionlevel row = Z.max (Raw.Dalc raw) (Raw.Walc raw) ∧
    (1 ≤ Raw.Dalc raw ≤ 5 → 1 ≤ Raw.Walc raw ≤ 5 → 1 ≤ consumptionlevel row ≤ 5).
Proof.
  intros Hi. eexists _, (derive raw). split; [apply startup_empty |].
  split; [by apply derive_lookup |]. cbn. unfold consumptionlevel_of. split; [done | lia].
Qed.

Lemma consumptionlevel_is_max_witness :
  ∃ wt row,
    startup [sample_raw] [] = (Ok selected_data, [ObjFrame wt]) ∧
    df_rows wt !! 0%nat = Some row ∧
    consumptionlevel row = 3 ∧ 1 ≤ consumptionlevel row ≤ 5.
Proof.
  destruct (consumptionlevel_is_max [sample_raw] 0 sample_raw eq_refl)
    as (wt & row & Hs & Hrow & Hc & Hb).
  exists wt, row. repeat split; try assumption; apply Hb; simpl; lia.
Defined.

(** C4 fails on the code: a line with study-time code 5 goes through
    start-up without any exception and its category is the missing value. *)
Lemma studytime_code_5_not_rejected :
  ∃ wt row,
    startup [sample_raw_code5] [] = (Ok selected_data, [ObjFrame wt]) ∧
    df_rows wt = [row] ∧
    Raw.studytime sample_raw_code5 = 5 ∧
    studytime row = None.
Proof. eexists _, _. repeat split. Qed.

(** C4, amended. Start-up never raises on a study-time code: a code among
    1-4 becomes the category at that position, and any other code becomes
    the missing value (NaN) of [studytime]. *)
Theorem studytime_unmapped_is_missing (data : list Raw.t) (i : nat) (raw : Raw.t) :
  data !! i = Some raw →
  ∃ wt row,
    startup data [] = (Ok selected_data, [ObjFrame wt]) ∧
    df_rows wt !! i = Some row ∧
    (1 ≤ Raw.studytime raw ≤ 4 →
       ∃ c, studytime row = Some c ∧ studytime_code c = Raw.studytime raw - 1) ∧
    (Raw.studytime raw < 1 ∨ 4 < Raw.studytime raw → studytime row = None).
Proof.
  intros Hi. eexists _, (derive raw). split; [apply startup_empty |].
  split; [by apply derive_lookup |]. cbn.
  split; [apply studytime_map_inside | apply studytime_map_outside].
Qed.

Lemma studytime_unmapped_is_missing_witness :
  ∃ wt row,
    startup [sample_raw_code5] [] = (Ok selected_data, [ObjFrame wt]) ∧
    df_rows wt !! 0%nat = Some row ∧
    studytime row = None.
Proof.
  destruct (studytime_unmapped_is_missing [sample_raw_code5] 0 sample_raw_code5 eq_refl)
    as (wt & row & Hs & Hrow & _ & Hout).
  exists wt, row. repeat split; try assumption. apply Hout. simpl. lia.
Defined.

(** ** The filter/group engine in the store *)

Lemma lookup_snoc (σ : Store) (o : Obj) n : n = length σ → (σ ++ [o]) !! n = Some o.
Proof. intros ->. rewrite lookup_app_r by lia. by rewrite Nat.sub_diag. Qed.

Lemma filter_and_group_run sel σ wt :
  σ !! selected_data = Some (ObjFrame wt) →
  filter_and_group sel σ =
    if String.eqb sel "All" then
      (Ok (length σ, S (length σ)),
       (σ ++ [ObjFrame wt]) ++ [ObjGrouped (grouped_of (df_rows wt))])
    else
      (Ok (S (length σ), S (S (length σ))),
       ((σ ++ [ObjFrame (select_rows (selects sel) wt)])
          ++ [ObjFrame (select_rows (selects sel) wt)])
          ++ [ObjGrouped (grouped_of (df_rows (select_rows (selects sel) wt)))]).
Proof.
  intros Hwt. unfold filter_and_group, bind, copy, getitem_mask, bind, read_frame, alloc, ret.
  destruct (String.eqb sel "All"); rewrite Hwt.
  - rewrite lookup_snoc by done. by rewrite length_app, Nat.add_1_r.
  - rewrite lookup_snoc by done. rewrite length_app, Nat.add_1_r.
    rewrite lookup_snoc by (rewrite length_app; simpl; lia).
    by rewrite !length_app, !Nat.add_1_r.
Qed.

Lemma filtered_table_run sel σ wt :
  σ !! selected_data = Some (ObjFrame wt) →
  filtered_table sel σ = Some (filtered_of sel wt).
Proof.
  intros Hwt. unfold filtered_table, filtered_of, frame_at.
  rewrite (filter_and_group_run _ _ _ Hwt).
  destruct (String.eqb sel "All"); cbv beta iota.
  - rewrite lookup_app_l by (rewrite length_app; simpl; lia).
    by rewrite lookup_snoc.
  - rewrite lookup_app_l by (rewrite !length_app; simpl; lia).
    by rewrite lookup_snoc by (rewrite length_app; simpl; lia).
Qed.

Lemma grouped_table_run sel σ wt :
  σ !! selected_data = Some (ObjFrame wt) →
  grouped_table sel σ = Some (grouped_of (df_rows (filtered_of sel wt))).
Proof.
  intros Hwt. unfold grouped_table, filtered_of, grouped_at.
  rewrite (filter_and_group_run _ _ _ Hwt).
  destruct (String.eqb sel "All"); cbv beta iota.
  - by rewrite lookup_snoc by (rewrite length_app; simpl; lia).
  - by rewrite lookup_snoc by (rewrite !length_app; simpl; lia).
Qed.

Lemma selects_true v r : selects v r = true ↔ sex r = v.
Proof. unfold selects. apply String.eqb_eq. Qed.

Lemma elem_of_selected v (rows : list Row) r :
  r ∈ List.filter (selects v) rows ↔ r ∈ rows ∧ sex r = v.
Proof. rewrite !list_elem_of_In, filter_In. by rewrite selects_true. Qed.

Lemma length_selected v (rows : list Row) :
  length (List.filter (selects v) rows) = count_sex v rows.
Proof.
  unfold count_sex. induction rows as [| r rows IH]; [done |]. cbn.
  destruct (String.string_dec (sex r) v) as [Heq | Hne].
  - apply selects_true in Heq. rewrite Heq. cbn. by rewrite IH.
  - assert (selects v r = false) as ->; [| exact IH].
    apply not_true_is_false. by rewrite selects_true.
Qed.

Lemma selected_partition a b (rows : list Row) :
  a ≠ b →
  (∀ r, r ∈ rows → sex r = a ∨ sex r = b) →
  List.filter (selects a) rows ++ List.filter (selects b) rows ≡ₚ rows.
Proof.
  intros Hab. induction rows as [| r rows IH]; intros Hall; [done |]. cbn.
  assert (List.filter (selects a) rows ++ List.filter (selects b) rows ≡ₚ rows) as IH'.
  { apply IH. intros r' Hr'. apply Hall. by right. }
  destruct (Hall r) as [Ha | Hb]; [by left | |].
  - assert (selects a r = true) as -> by by apply selects_true.
    assert (selects b r = false) as ->.
    { apply not_true_is_false. rewrite selects_true. congruence. }
    cbn. by rewrite IH'.
  - assert (selects b r = true) as -> by by apply selects_true.
    assert (selects a r = false) as ->.
    { apply not_true_is_false. rewrite selects_true. congruence. }
    rewrite <- Permutation_middle. by rewrite IH'.
Qed.

(** C1. With the Working Table in [selected_data], the FilteredTable for
    "All" has as many rows as the Working Table; the one for "Male"
    (resp. "Female") holds exactly the rows whose [sex] is that value, as
    many as there are such rows; and when every row is "Male" or "Female",
    the two together are the rows of the "All" table. *)
Theorem gender_filter_partitions (σ : Store) (wt : DataFrame) :
  σ !! selected_data = Some (ObjFrame wt) →
  ∃ all male female,
    filtered_table "All" σ = Some all ∧
    filtered_table "Male" σ = Some male ∧
    filtered_table "Female" σ = Some female ∧
    length (df_rows all) = length (df_rows wt) ∧
    (∀ r, r ∈ df_rows male ↔ r ∈ df_rows wt ∧ sex r = "Male") ∧
    length (df_rows male) = count_sex "Male" (df_rows wt) ∧
    (∀ r, r ∈ df_rows female ↔ r ∈ df_rows wt ∧ sex r = "Female") ∧
    length (df_rows female) = count_sex "Female" (df_rows wt) ∧
    ((∀ r, r ∈ df_rows wt → sex r = "Male" ∨ sex r = "Female") →
     df_rows male ++ df_rows female ≡ₚ df_rows all).
Proof.
  intros Hwt.
  exists (filtered_of "All" wt), (filtered_of "Male" wt), (filtered_of "Female" wt).
  rewrite !(filtered_table_run _ _ _ Hwt). cbn.
  split; [done |]. split; [done |]. split; [done |]. split; [done |].
  split; [apply elem_of_selected |]. split; [apply length_selected |].
  split; [apply elem_of_selected |]. split; [apply length_selected |].
  intros Hall. by apply selected_partition.
Qed.

Lemma gender_filter_partitions_witness :
  ∃ all male female,
    filtered_table "All" sample_store = Some all ∧
    filtered_table "Male" sample_store = Some male ∧
    filtered_table "Female" sample_store = Some female ∧
    length (df_rows all) = 3%nat ∧
    length (df_rows male) = 1%nat ∧
    length (df_rows female) = 2%nat ∧
    df_rows male ++ df_rows female ≡ₚ df_rows all.
Proof.
  destruct (gender_filter_partitions sample_store _ eq_refl)
    as (all & male & female & Ha & Hm & Hf & Hla & _ & Hlm & _ & Hlf & Hperm).
  exists all, male, female. repeat split; try assumption.
  apply Hperm. intros r Hr.
  repeat (apply elem_of_cons in Hr as [-> | Hr]; [cbn; auto |]).
  by apply elem_of_nil in Hr.
Defined.

(** C5 fails on the code: a selection outside the three values is filtered
    like any other; the engine returns its two tables (here empty ones). *)
Lemma unsupported_selection_not_rejected :
  ∃ fr gr σ' fd,
    filter_and_group "Other" sample_store = (Ok (fr, gr), σ') ∧
    frame_at σ' fr = Some fd ∧
    df_rows fd = [] ∧
    grouped_at σ' gr = Some [].
Proof. eexists _, _, _, _. repeat split. Qed.

(** C5, amended. The engine rejects no selection value: for "All" the
    FilteredTable is the Working Table, for any other string (one of
    "Male", "Female" or not) it holds the rows whose [sex] equals that
    string, possibly none, and the GroupedTable is its grouping. *)
Theorem every_selection_is_filtered (σ : Store) (wt : DataFrame) (selection : string) :
  σ !! selected_data = Some (ObjFrame wt) →
  ∃ fr gr σ' fd,
    filter_and_group selection σ = (Ok (fr, gr), σ') ∧
    frame_at σ' fr = Some fd ∧
    grouped_at σ' gr = Some (grouped_of (df_rows fd)) ∧
    (selection = "All" → fd = wt) ∧
    (selection ≠ "All" → ∀ r, r ∈ df_rows fd ↔ r ∈ df_rows wt ∧ sex r = selection).
Proof.
  intros Hwt.
  pose proof (filtered_table_run selection _ _ Hwt) as Hf.
  pose proof (grouped_table_run selection _ _ Hwt) as Hg.
  unfold filtered_table in Hf. unfold grouped_table in Hg.
  destruct (filter_and_group selection σ) as [[[fr gr] | e] σ'] eqn:Hrun; [| done].
  exists fr, gr, σ', (filtered_of selection wt).
  split; [done |]. split; [done |]. split; [done |].
  unfold filtered_of. destruct (String.eqb_spec selection "All") as [-> | Hne].
  - split; [done |]. by intros [].
  - split; [done |]. intros _ r. apply elem_of_selected.
Qed.

Lemma every_selection_is_filtered_witness :
  ∃ fr gr σ' fd,
    filter_and_group "Other" sample_store = (Ok (fr, gr), σ') ∧
    frame_at σ' fr = Some fd ∧
    ∀ r, r ∈ df_rows fd ↔ r ∈ df_rows sample_working_table ∧ sex r = "Other".
Proof.
  destruct (every_selection_is_filtered sample_store _ "Other" eq_refl)
    as (fr & gr & σ' & fd & Hrun & Hfd & _ & _ & Hrows).
  exists fr, gr, σ', fd. split; [exact Hrun |]. split; [exact Hfd |].
  apply Hrows. discriminate.
Defined.

(** ** Effects of the figure generator and of the callback on the store *)

Lemma bind_ret_store {A B} (m : M A) (f : A → B) σ :
  (bind m (λ a, ret (f a)) σ).2 = (m σ).2.
Proof. unfold bind, ret. by destruct (m σ) as [[a | e] σ']. Qed.

Lemma generate_figures_store fr gr σ fd g :
  σ !! fr = Some (ObjFrame fd) →
  σ !! gr = Some (ObjGrouped g) →
  (generate_figures fr gr σ).2 =
    match cut (consumptionlevel <$> df_rows fd) 3 consumption_levels true with
    | Ok col => <[fr := ObjFrame (set_consumption_level col fd)]> σ
    | Raise _ => σ
    end.
Proof.
  intros Hfr Hgr.
  unfold generate_figures, bind, read_frame, read_grouped, lift, write_frame, ret.
  rewrite Hfr, Hgr.
  destruct (cut _ _ _ _) as [col | e]; [| done].
  rewrite list_lookup_insert_eq by (by eapply lookup_lt_Some). done.
Qed.

Lemma generate_figures_result σ1 σ2 f1 g1 f2 g2 fd1 fd2 g :
  σ1 !! f1 = Some (ObjFrame fd1) → σ1 !! g1 = Some (ObjGrouped g) →
  σ2 !! f2 = Some (ObjFrame fd2) → σ2 !! g2 = Some (ObjGrouped g) →
  df_rows fd1 = df_rows fd2 →
  (generate_figures f1 g1 σ1).1 = (generate_figures f2 g2 σ2).1.
Proof.
  intros Hf1 Hg1 Hf2 Hg2 Hrows.
  unfold generate_figures, bind, read_frame, read_grouped, lift, write_frame, ret.
  rewrite Hf1, Hg1, Hf2, Hg2, Hrows.
  destruct (cut _ _ _ _) as [col | e]; [| done].
  rewrite !list_lookup_insert_eq by (by eapply lookup_lt_Some). cbn. by rewrite Hrows.
Qed.

Lemma update_plots_keeps_working_table sel σ wt :
  σ !! selected_data = Some (ObjFrame wt) →
  (update_plots sel σ).2 !! selected_data = Some (ObjFrame wt).
Proof.
  intros Hwt. assert (0 < length σ)%nat as Hlen by (by eapply lookup_lt_Some).
  unfold update_plots. unfold bind at 1.
  rewrite (filter_and_group_run _ _ _ Hwt).
  destruct (String.eqb sel "All"); cbv beta iota; rewrite bind_ret_store; cbn [fst snd].
  - erewrite generate_figures_store.
    2:{ rewrite lookup_app_l by (rewrite length_app; simpl; lia). by apply lookup_snoc. }
    2:{ apply lookup_snoc. rewrite length_app; simpl; lia. }
    destruct (cut _ _ _ _).
    + rewrite list_lookup_insert_ne by (unfold selected_data; lia).
      by rewrite <- !app_assoc, lookup_app_l.
    + by rewrite <- !app_assoc, lookup_app_l.
  - erewrite generate_figures_store.
    2:{ rewrite lookup_app_l by (rewrite !length_app; simpl; lia).
        apply lookup_snoc. rewrite length_app; simpl; lia. }
    2:{ apply lookup_snoc. rewrite !length_app; simpl; lia. }
    destruct (cut _ _ _ _).
    + rewrite list_lookup_insert_ne by (unfold selected_data; lia).
      by rewrite <- !app_assoc, lookup_app_l.
    + by rewrite <- !app_assoc, lookup_app_l.
Qed.

Lemma events_keep_working_table selections σ wt :
  σ !! selected_data = Some (ObjFrame wt) →
  events selections σ !! selected_data = Some (ObjFrame wt).
Proof.
  revert σ. induction selections as [| s rest IH]; intros σ Hwt; [done |].
  cbn. apply IH. by apply update_plots_keeps_working_table.
Qed.

(** C3. Whatever control events have run, each to its end or to its
    exception, [selected_data] still holds the Working Table it held at the
    start (same columns, same rows, same cells), and the FilteredTable and
    GroupedTable of the next event are objects distinct from it. *)
Theorem working_table_never_mutated (σ : Store) (wt : DataFrame) (selections : list string) :
  σ !! selected_data = Some (ObjFrame wt) →
  events selections σ !! selected_data = Some (ObjFrame wt) ∧
  ∀ selection fr gr σ',
    filter_and_group selection (events selections σ) = (Ok (fr, gr), σ') →
    fr ≠ selected_data ∧ gr ≠ selected_data ∧
    σ' !! selected_data = Some (ObjFrame wt).
Proof.
  intros Hwt. pose proof (events_keep_working_table selections _ _ Hwt) as Hev.
  split; [exact Hev |]. intros selection fr gr σ' Hrun.
  assert (0 < length (events selections σ))%nat as Hlen by (by eapply lookup_lt_Some).
  rewrite (filter_and_group_run _ _ _ Hev) in Hrun.
  destruct (String.eqb selection "All"); injection Hrun as <- <- <-;
    (split; [unfold selected_data; lia |]); (split; [unfold selected_data; lia |]);
    by rewrite <- !app_assoc, lookup_app_l.
Qed.

Lemma working_table_never_mutated_witness :
  events ["All"; "Female"; "Other"; "Female"] sample_store !! selected_data
    = sample_store !! selected_data.
Proof.
  exact (proj1 (working_table_never_mutated sample_store _
                  ["All"; "Female"; "Other"; "Female"] eq_refl)).
Defined.





(** ** Binning of the consumption level *)

Lemma Qltb_true a b : Qltb a b = true ↔ (a < b)%Q.
Proof.
  unfold Qltb. rewrite negb_true_iff. split.
  - intros Hf. apply Qnot_le_lt. intros Hle. apply Qle_bool_iff in Hle. congruence.
  - intros Hlt. apply not_true_is_false. intros Hle%Qle_bool_iff. by apply Qlt_not_le in Hlt.
Qed.

Ltac qlin := unfold Qdiv in *; change (/ 3)%Q with (1 # 3)%Q in *; lra.

Lemma first_edge_Z (mn mx v : Z) :
  (inject_Z v <= inject_Z mn + 1 * ((inject_Z mx - inject_Z mn) / 3))%Q
  ↔ 3 * (v - mn) ≤ mx - mn.
Proof.
  rewrite Zle_Qle. rewrite !inject_Z_mult. unfold Z.sub. rewrite !inject_Z_plus, !inject_Z_opp.
  change (inject_Z 3) with 3%Q.
  split; intros; qlin.
Qed.

Lemma second_edge_Z (mn mx v : Z) :
  (inject_Z v <= inject_Z mn + 2 * ((inject_Z mx - inject_Z mn) / 3))%Q
  ↔ 3 * (v - mn) ≤ 2 * (mx - mn).
Proof.
  rewrite Zle_Qle. rewrite !inject_Z_mult. unfold Z.sub. rewrite !inject_Z_plus, !inject_Z_opp.
  change (inject_Z 3) with 3%Q. change (inject_Z 2) with 2%Q.
  split; intros; qlin.
Qed.

Lemma linspace_4 a b :
  linspace a b 4 =
    [(a + 0 * ((b - a) / 3))%Q; (a + 1 * ((b - a) / 3))%Q;
     (a + 2 * ((b - a) / 3))%Q; (a + 3 * ((b - a) / 3))%Q].
Proof. reflexivity. Qed.

Lemma cut_one_4 (e0 e1 e2 e3 : Q) (v : Z) :
  (e0 < inject_Z v)%Q → (inject_Z v <= e3)%Q →
  cut_one [e0; e1; e2; e3] consumption_levels true v =
    Some (if Qle_bool (inject_Z v) e1 then Low
          else if Qle_bool (inject_Z v) e2 then Medium else High).
Proof.
  intros Hlo Hhi. unfold cut_one. cbn [searchsorted_left].
  assert (Qltb e0 (inject_Z v) = true) as -> by by apply Qltb_true.
  assert (Qeq_bool (inject_Z v) e0 = false) as ->.
  { apply not_true_is_false. intros Heq%Qeq_bool_iff. rewrite Heq in Hlo.
    by apply Qlt_irrefl in Hlo. }
  assert (Qle_bool (inject_Z v) e3 = true) as He3 by by apply Qle_bool_iff.
  unfold Qltb. rewrite He3.
  destruct (Qle_bool (inject_Z v) e1); [done |].
  destruct (Qle_bool (inject_Z v) e2); done.
Qed.

Lemma first_edge_bool (mn mx v : Z) :
  Qle_bool (inject_Z v) (inject_Z mn + 1 * ((inject_Z mx - inject_Z mn) / 3))%Q
  = (3 * (v - mn) <=? mx - mn).
Proof. apply eq_true_iff_eq. rewrite Qle_bool_iff, Z.leb_le. apply first_edge_Z. Qed.

Lemma second_edge_bool (mn mx v : Z) :
  Qle_bool (inject_Z v) (inject_Z mn + 2 * ((inject_Z mx - inject_Z mn) / 3))%Q
  = (3 * (v - mn) <=? 2 * (mx - mn)).
Proof. apply eq_true_iff_eq. rewrite Qle_bool_iff, Z.leb_le. apply second_edge_Z. Qed.

Lemma widen_pos v : (0 < widen v)%Q.
Proof.
  unfold widen. destruct (Qeq_bool v 0) eqn:Hz; [reflexivity |].
  apply Qeq_bool_neq in Hz. apply Qabs_case; intros Hv.
  - apply Qle_lt_or_eq in Hv as [Hv | Hv]; [lra | by symmetry in Hv].
  - apply Qle_lt_or_eq in Hv as [Hv | Hv]; [lra | done].
Qed.

Lemma col_bounds x0 xs v :
  v ∈ x0 :: xs → col_min x0 xs ≤ v ≤ col_max x0 xs.
Proof.
  unfold col_min, col_max. induction xs as [| y ys IH]; cbn.
  - intros ->%list_elem_of_singleton. lia.
  - intros Hv. apply elem_of_cons in Hv as [-> | Hv].
    + assert (x0 ∈ x0 :: ys) as H0 by by left. apply IH in H0. lia.
    + apply elem_of_cons in Hv as [-> | Hv]; [lia |].
      assert (v ∈ x0 :: ys) as H0 by by right. apply IH in H0. lia.
Qed.

Lemma cut_degenerate (m : Z) :
  cut_one (linspace (inject_Z m - widen (inject_Z m)) (inject_Z m + widen (inject_Z m)) 4)
    consumption_levels true m = Some Medium.
Proof.
  rewrite linspace_4. pose proof (widen_pos (inject_Z m)) as Hw.
  set (w := widen (inject_Z m)) in *.
  rewrite cut_one_4 by qlin.
  assert (Qle_bool (inject_Z m) (inject_Z m - w + 1 * ((inject_Z m + w - (inject_Z m - w)) / 3))
          = false) as ->.
  { apply not_true_is_false. intros Hle%Qle_bool_iff. qlin. }
  assert (Qle_bool (inject_Z m) (inject_Z m - w + 2 * ((inject_Z m + w - (inject_Z m - w)) / 3))
          = true) as ->; [| done].
  apply Qle_bool_iff. qlin.
Qed.

Lemma cut_proper (mn mx v : Z) :
  mn < mx → mn ≤ v ≤ mx →
  cut_one
    ((inject_Z mn + 0 * ((inject_Z mx - inject_Z mn) / 3)
        - (inject_Z mx - inject_Z mn) * (1 # 1000))%Q
     :: [(inject_Z mn + 1 * ((inject_Z mx - inject_Z mn) / 3))%Q;
         (inject_Z mn + 2 * ((inject_Z mx - inject_Z mn) / 3))%Q;
         (inject_Z mn + 3 * ((inject_Z mx - inject_Z mn) / 3))%Q])
    consumption_levels true v
  = Some (equal_width_bin mn mx v).
Proof.
  intros Hlt [Hlo Hhi].
  assert (inject_Z mn < inject_Z mx)%Q as Hlt' by (by rewrite <- Zlt_Qlt).
  assert (inject_Z mn <= inject_Z v)%Q as Hlo' by (by rewrite <- Zle_Qle).
  assert (inject_Z v <= inject_Z mx)%Q as Hhi' by (by rewrite <- Zle_Qle).
  rewrite cut_one_4 by qlin.
  rewrite first_edge_bool, second_edge_bool. unfold equal_width_bin.
  destruct (Z.eqb_spec mn mx); [lia | done].
Qed.

(** C8 fails on the code: the same row, with consumption level 2, is
    labelled [Medium] in a table whose levels span 1-3 and [Low] in one whose
    levels span 1-5; cutting the fixed range 1-5 would give [Low] in both. *)
Lemma bin_label_depends_on_table :
  let tA := [level_row 1; level_row 2; level_row 3] in
  let tB := [level_row 1; level_row 2; level_row 5] in
  tA !! 1%nat = tB !! 1%nat ∧
  cut (consumptionlevel <$> tA) 3 consumption_levels true
    = Ok [Some Low; Some Medium; Some High] ∧
  cut (consumptionlevel <$> tB) 3 consumption_levels true
    = Ok [Some Low; Some Low; Some High] ∧
  fixed_range_bin (consumptionlevel (level_row 2)) = Low.
Proof. repeat split. Qed.

(** C8, amended. On a non-empty FilteredTable every row gets a label among
    Low, Medium, High (never NaN): the label of its consumption level in
    three equal-width bins over the interval from the smallest to the
    largest consumption level present in that FilteredTable, the leftmost
    boundary included (all levels equal: Medium).  The label thus depends on
    the row's value and on the extreme values of the table.  On an empty
    FilteredTable the binning raises. *)
Theorem box_bins_follow_table_range (rows : list Row) :
  match consumptionlevel <$> rows with
  | [] =>
      cut (consumptionlevel <$> rows) 3 consumption_levels true
        = Raise (ValueError "Cannot cut empty array")
  | x0 :: xs =>
      cut (consumptionlevel <$> rows) 3 consumption_levels true
        = Ok ((λ r, Some (equal_width_bin (col_min x0 xs) (col_max x0 xs) (consumptionlevel r)))
              <$> rows)
  end.
Proof.
  destruct (consumptionlevel <$> rows) as [| x0 xs] eqn:Hcol; [done |].
  unfold cut, nbins_to_bins. cbn [Nat.ltb Nat.leb].
  fold (col_min x0 xs). fold (col_max x0 xs).
  assert (∀ r, r ∈ rows → col_min x0 xs ≤ consumptionlevel r ≤ col_max x0 xs) as Hb.
  { intros r Hr. apply col_bounds. rewrite <- Hcol. by apply list_elem_of_fmap_2. }
  destruct (Z.eqb_spec (col_min x0 xs) (col_max x0 xs)) as [Heq | Hne].
  - f_equal. rewrite <- Hcol, <- list_fmap_compose. apply list_fmap_ext.
    intros i r Hr%list_elem_of_lookup_2. apply Hb in Hr. cbn.
    unfold equal_width_bin. rewrite Heq, Z.eqb_refl.
    assert (consumptionlevel r = col_max x0 xs) as -> by lia.
    rewrite <- Heq at 1. rewrite <- Heq.
    apply cut_degenerate.
  - rewrite linspace_4. f_equal. rewrite <- Hcol, <- list_fmap_compose. apply list_fmap_ext.
    intros i r Hr%list_elem_of_lookup_2. apply Hb in Hr. cbn.
    apply cut_proper; [| done]. assert (x0 ∈ x0 :: xs) as H0%col_bounds by by left. lia.
Qed.

(** ** The grouped table *)

Lemma g_key_grouped_of rows :
  g_key <$> grouped_of rows
  = merge_sort (λ a b, key4_leb a b) (remove_dups (omap key4 rows)).
Proof.
  unfold grouped_of, groupby, group_keys. rewrite <- !list_fmap_compose.
  rewrite <- (list_fmap_id (merge_sort _ _)) at 2. apply list_fmap_ext.
  intros i [[[s c] n] h] _. reflexivity.
Qed.

Lemma grouped_keys_perm rows :
  g_key <$> grouped_of rows ≡ₚ remove_dups (omap key4 rows).
Proof. rewrite g_key_grouped_of. apply merge_sort_Permutation. Qed.

Lemma elem_of_grouped_of rows g :
  g ∈ grouped_of rows →
  (∃ r, r ∈ rows ∧ key4 r = Some (g_key g)) ∧
  g_consumptionlevel g = mean (consumptionlevel <$> group_rows key4 (g_key g) rows) ∧
  g_failures g = mean (failures <$> group_rows key4 (g_key g) rows) ∧
  g_absences g = mean (absences <$> group_rows key4 (g_key g) rows) ∧
  g_GPA g = mean (GPA <$> group_rows key4 (g_key g) rows).
Proof.
  intros Hg. assert (g_key g ∈ g_key <$> grouped_of rows) as Hk by by apply list_elem_of_fmap_2.
  rewrite grouped_keys_perm, elem_of_remove_dups, list_elem_of_omap in Hk. split; [done |].
  unfold grouped_of, groupby in Hg. rewrite <- list_fmap_compose in Hg.
  apply list_elem_of_fmap in Hg as ([[[s c] n] h] & -> & _). done.
Qed.

(** C2, amended. The GroupedTable has exactly one row per distinct
    (sex, studytime, internet, higher education) combination carried by a
    row of the FilteredTable whose [studytime] is not missing; combinations
    with no such row are absent; and the four aggregated columns of a row
    are the means over the (non-empty) group of rows with its key. *)
Theorem grouped_rows_are_observed_keys (rows : list Row) :
  NoDup (g_key <$> grouped_of rows) ∧
  (∀ k, k ∈ g_key <$> grouped_of rows ↔ ∃ r, r ∈ rows ∧ key4 r = Some k) ∧
  length (grouped_of rows) = length (remove_dups (omap key4 rows)) ∧
  (∀ g, g ∈ grouped_of rows →
     let group := List.filter (λ r, bool_decide (key4 r = Some (g_key g))) rows in
     group ≠ [] ∧
     g_consumptionlevel g = mean (consumptionlevel <$> group) ∧
     g_failures g = mean (failures <$> group) ∧
     g_absences g = mean (absences <$> group) ∧
     g_GPA g = mean (GPA <$> group)).
Proof.
  split; [rewrite grouped_keys_perm; apply NoDup_remove_dups |].
  split.
  { intros k. by rewrite grouped_keys_perm, elem_of_remove_dups, list_elem_of_omap. }
  split.
  { rewrite <- (length_fmap g_key). by rewrite grouped_keys_perm. }
  intros g Hg group. apply elem_of_grouped_of in Hg as ((r & Hr & Hk) & Hmeans).
  split; [| exact Hmeans].
  intros Hnil. assert (r ∈ group) as Hin.
  { apply list_elem_of_In, filter_In. split; [by apply list_elem_of_In |].
    by apply bool_decide_eq_true. }
  rewrite Hnil in Hin. by apply elem_of_nil in Hin.
Qed.

Lemma grouped_rows_are_observed_keys_witness :
  length (grouped_of (df_rows sample_working_table)) = 2%nat ∧
  ∃ g,
    grouped_of (df_rows sample_working_table) !! 1%nat = Some g ∧
    g_sex g = "Male" ∧
    g_GPA g = mean (GPA <$> List.filter (λ r, bool_decide (key4 r = Some (g_key g)))
                              (df_rows sample_working_table)) ∧
    g_GPA g = Some 55%Q.
Proof.
  destruct (grouped_rows_are_observed_keys (df_rows sample_working_table))
    as (_ & _ & Hlen & Hg).
  split; [exact Hlen |].
  assert (∃ g, grouped_of (df_rows sample_working_table) !! 1%nat = Some g) as [g Hin]
    by (eexists; reflexivity).
  exists g. split; [exact Hin |].
  destruct (Hg g (list_elem_of_lookup_2 _ _ _ Hin)) as (_ & _ & _ & _ & Hgpa).
  split; [by injection Hin as <- |]. split; [exact Hgpa |]. by injection Hin as <-.
Defined.

(** C2 fails on the code: a FilteredTable whose only row has a missing
    [studytime] holds one key combination, and its GroupedTable is empty. *)
Lemma missing_studytime_group_dropped :
  ∃ fd g,
    filtered_table "All" (startup [sample_raw_code5] []).2 = Some fd ∧
    grouped_table "All" (startup [sample_raw_code5] []).2 = Some g ∧
    length (remove_dups (key_cells <$> df_rows fd)) = 1%nat ∧
    g = [].
Proof. eexists _, _. split; [reflexivity |]. split; [reflexivity |]. split; reflexivity. Qed.

(** ** The line chart *)

(** Whatever the FilteredTable, the line data has one entry per category. *)
Lemma studytime_gpa_all_categories rows :
  (studytime_gpa rows).*1 = categories.
Proof. reflexivity. Qed.

(** C7 at a failing input: with "Female" selected on [sample_store], the
    only study-time category among the filtered rows is "2-5 hours", and the
    line chart is drawn from four entries, three of them with a NaN mean. *)
Theorem line_chart_keeps_absent_categories :
  ∃ figs σ',
    update_plots "Female" sample_store = (Ok figs, σ') ∧
    studytime <$> df_rows (filtered_of "Female" sample_working_table)
      = [Some From2to5h; None] ∧
    fig_data figs.1.1.1.2
      = LineData [(Lt2h, None); (From2to5h, Some 70%Q); (From5to10h, None); (Gt10h, None)].
Proof. eexists _, _. split; [vm_compute; reflexivity |]. split; reflexivity. Qed.

(** ** Further properties of the column derivation *)

Lemma sex_replace_cases s :
  (s = "F" → sex_replace s = "Female") ∧
  (s = "M" → sex_replace s = "Male") ∧
  (s ≠ "F" → s ≠ "M" → sex_replace s = s) ∧
  sex_replace s ≠ "F" ∧ sex_replace s ≠ "M".
Proof.
  unfold sex_replace.
  destruct (String.eqb_spec s "F") as [-> | HF]; [by repeat split |].
  destruct (String.eqb_spec s "M") as [-> | HM]; by repeat split.
Qed.

(** X1. The relabelling of line 42 on the start-up table: "F" becomes
    "Female", "M" becomes "Male", any other value is kept; no row is left
    with the raw codes, and the table has as many rows as the file. *)
Theorem sex_is_relabelled (data : list Raw.t) (i : nat) (raw : Raw.t) :
  data !! i = Some raw →
  ∃ wt row,
    startup data [] = (Ok selected_data, [ObjFrame wt]) ∧
    length (df_rows wt) = length data ∧
    df_rows wt !! i = Some row ∧
    (Raw.sex raw = "F" → sex row = "Female") ∧
    (Raw.sex raw = "M" → sex row = "Male") ∧
    (Raw.sex raw ≠ "F" → Raw.sex raw ≠ "M" → sex row = Raw.sex raw) ∧
    sex row ≠ "F" ∧ sex row ≠ "M".
Proof.
  intros Hi. eexists _, (derive raw). split; [apply startup_empty |].
  split; [apply length_fmap |]. split; [by apply derive_lookup |].
  apply sex_replace_cases.
Qed.

Lemma sex_is_relabelled_witness :
  ∃ wt row,
    startup [sample_raw; sample_raw_male] [] = (Ok selected_data, [ObjFrame wt]) ∧
    length (df_rows wt) = 2%nat ∧
    df_rows wt !! 1%nat = Some row ∧ sex row = "Male".
Proof.
  destruct (sex_is_relabelled [sample_raw; sample_raw_male] 1 sample_raw_male eq_refl)
    as (wt & row & Hs & Hlen & Hrow & _ & HM & _).
  exists wt, row. repeat split; try assumption. by apply HM.
Defined.

(** Relabelling a column that was already relabelled changes nothing. *)
Lemma sex_replace_idempotent s : sex_replace (sex_replace s) = sex_replace s.
Proof.
  destruct (sex_replace_cases (sex_replace s)) as (_ & _ & Hid & _).
  destruct (sex_replace_cases s) as (_ & _ & _ & HF & HM). by apply Hid.
Qed.

(** X2. The order of the categorical built at lines 21-30 is the order of the
    numeric codes: of two mapped codes, the smaller one gets the earlier
    category, and distinct codes get distinct categories. *)
Theorem studytime_order_follows_codes (a b : Z) (ca cb : StudyTime) :
  studytime_map a = Some ca →
  studytime_map b = Some cb →
  (a ≤ b ↔ studytime_leb ca cb = true) ∧ (a = b ↔ ca = cb).
Proof.
  intros Ha Hb.
  assert (1 ≤ a ≤ 4) as Hra.
  { destruct (Z_le_gt_dec 1 a), (Z_le_gt_dec a 4); try lia;
      rewrite studytime_map_outside in Ha by lia; discriminate. }
  assert (1 ≤ b ≤ 4) as Hrb.
  { destruct (Z_le_gt_dec 1 b), (Z_le_gt_dec b 4); try lia;
      rewrite studytime_map_outside in Hb by lia; discriminate. }
  destruct (studytime_map_inside a Hra) as (ca' & Ha' & Hca).
  destruct (studytime_map_inside b Hrb) as (cb' & Hb' & Hcb).
  assert (ca' = ca) as -> by congruence. assert (cb' = cb) as -> by congruence.
  unfold studytime_leb. rewrite Z.leb_le. split; [lia |].
  split; [intros ->; congruence |]. intros ->. lia.
Qed.

Lemma studytime_order_follows_codes_witness :
  studytime_leb From2to5h Gt10h = true ∧ From2to5h ≠ Gt10h.
Proof.
  destruct (studytime_order_follows_codes 2 4 From2to5h Gt10h eq_refl eq_refl) as [Hle Heq].
  split; [apply Hle; lia |]. intros Hc. apply Heq in Hc. lia.
Defined.

(** ** Further properties of the callback *)

Lemma bind_ret_result {A B} (m : M A) (f : A → B) σ :
  (bind m (λ a, ret (f a)) σ).1 =
    match (m σ).1 with
    | Ok a => Ok (f a)
    | Raise e => Raise e
    end.
Proof. unfold bind, ret. by destruct (m σ) as [[a | e] σ']. Qed.

Lemma update_plots_keeps_objects sel (σ : Store) wt i o :
  σ !! selected_data = Some (ObjFrame wt) →
  σ !! i = Some o →
  (update_plots sel σ).2 !! i = Some o.
Proof.
  intros Hwt Hi. assert (i < length σ)%nat as Hlen by (by eapply lookup_lt_Some).
  unfold update_plots. unfold bind at 1.
  rewrite (filter_and_group_run _ _ _ Hwt).
  destruct (String.eqb sel "All"); cbv beta iota; rewrite bind_ret_store; cbn [fst snd].
  - erewrite generate_figures_store.
    2:{ rewrite lookup_app_l by (rewrite length_app; simpl; lia). by apply lookup_snoc. }
    2:{ apply lookup_snoc. rewrite length_app; simpl; lia. }
    destruct (cut _ _ _ _).
    + rewrite list_lookup_insert_ne by lia.
      by rewrite <- !app_assoc, lookup_app_l.
    + by rewrite <- !app_assoc, lookup_app_l.
  - erewrite generate_figures_store.
    2:{ rewrite lookup_app_l by (rewrite !length_app; simpl; lia).
        apply lookup_snoc. rewrite length_app; simpl; lia. }
    2:{ apply lookup_snoc. rewrite !length_app; simpl; lia. }
    destruct (cut _ _ _ _).
    + rewrite list_lookup_insert_ne by lia.
      by rewrite <- !app_assoc, lookup_app_l.
    + by rewrite <- !app_assoc, lookup_app_l.
Qed.

(** X3. No control event touches an object that existed before it: the tables
    and figures inputs of earlier events, like the Working Table, are found
    unchanged after any further sequence of events. *)
Theorem events_keep_every_object (σ : Store) (wt : DataFrame) (selections : list string)
    (i : ref) (o : Obj) :
  σ !! selected_data = Some (ObjFrame wt) →
  σ !! i = Some o →
  events selections σ !! i = Some o.
Proof.
  revert σ. induction selections as [| s rest IH]; intros σ Hwt Hi; [done |].
  cbn. apply IH; by eapply update_plots_keeps_objects.
Qed.

Lemma events_keep_every_object_witness :
  events ["Male"; "Other"] sample_engine_store !! 1%nat = sample_engine_store !! 1%nat.
Proof.
  exact (events_keep_every_object sample_engine_store _ ["Male"; "Other"] 1 _ eq_refl eq_refl).
Defined.

Lemma update_plots_result sel (σ1 σ2 : Store) wt :
  σ1 !! selected_data = Some (ObjFrame wt) →
  σ2 !! selected_data = Some (ObjFrame wt) →
  (update_plots sel σ1).1 = (update_plots sel σ2).1.
Proof.
  intros H1 H2. unfold update_plots. unfold bind at 1 3.
  rewrite (filter_and_group_run _ _ _ H1), (filter_and_group_run _ _ _ H2).
  destruct (String.eqb sel "All"); cbv beta iota; rewrite !bind_ret_result; cbn [fst snd].
  - erewrite (generate_figures_result _ (_ ++ _)); [done | | | | | done].
    + rewrite lookup_app_l by (rewrite length_app; simpl; lia). by apply lookup_snoc.
    + apply lookup_snoc. rewrite length_app; simpl; lia.
    + rewrite lookup_app_l by (rewrite length_app; simpl; lia). by apply lookup_snoc.
    + apply lookup_snoc. rewrite length_app; simpl; lia.
  - erewrite (generate_figures_result _ (_ ++ _)); [done | | | | | done].
    + rewrite lookup_app_l by (rewrite !length_app; simpl; lia).
      apply lookup_snoc. rewrite length_app; simpl; lia.
    + apply lookup_snoc. rewrite !length_app; simpl; lia.
    + rewrite lookup_app_l by (rewrite !length_app; simpl; lia).
      apply lookup_snoc. rewrite length_app; simpl; lia.
    + apply lookup_snoc. rewrite !length_app; simpl; lia.
Qed.

(** X4. What an event returns does not depend on the events before it: after
    any sequence of events, a selection gives the same FilteredTable, the
    same GroupedTable and the same seven figures (or the same exception) as
    on the store it started from. *)
Theorem update_plots_ignores_history (σ : Store) (wt : DataFrame)
    (selections : list string) (selection : string) :
  σ !! selected_data = Some (ObjFrame wt) →
  filtered_table selection (events selections σ) = filtered_table selection σ ∧
  grouped_table selection (events selections σ) = grouped_table selection σ ∧
  (update_plots selection (events selections σ)).1 = (update_plots selection σ).1.
Proof.
  intros Hwt. pose proof (events_keep_working_table selections _ _ Hwt) as Hev.
  rewrite !(filtered_table_run _ _ _ Hev), !(filtered_table_run _ _ _ Hwt).
  rewrite !(grouped_table_run _ _ _ Hev), !(grouped_table_run _ _ _ Hwt).
  split; [done |]. split; [done |]. by eapply update_plots_result.
Qed.

Lemma update_plots_ignores_history_witness :
  (update_plots "Female" (events ["All"; "Female"; "Nobody"] sample_store)).1
  = (update_plots "Female" sample_store).1.
Proof.
  exact (proj2 (proj2 (update_plots_ignores_history sample_store _
                         ["All"; "Female"; "Nobody"] "Female" eq_refl))).
Defined.

Lemma generate_figures_raises fr gr (σ : Store) fd g e :
  σ !! fr = Some (ObjFrame fd) →
  σ !! gr = Some (ObjGrouped g) →
  cut (consumptionlevel <$> df_rows fd) 3 consumption_levels true = Raise e →
  (generate_figures fr gr σ).1 = Raise e.
Proof.
  intros Hfr Hgr Hcut.
  unfold generate_figures, bind, read_frame, read_grouped, lift.
  by rewrite Hfr, Hgr, Hcut.
Qed.

(** X5. A selection that matches no row (or an empty Working Table) gives no
    figures: the callback raises, because the binning of line 112 refuses
    an empty column. *)
Theorem update_plots_raises_on_empty_selection (σ : Store) (wt : DataFrame)
    (selection : string) :
  σ !! selected_data = Some (ObjFrame wt) →
  df_rows (filtered_of selection wt) = [] →
  ∃ e, (update_plots selection σ).1 = Raise e.
Proof.
  intros Hwt Hempty. exists (ValueError "Cannot cut empty array").
  unfold update_plots. unfold bind at 1.
  rewrite (filter_and_group_run _ _ _ Hwt). unfold filtered_of in Hempty.
  destruct (String.eqb selection "All"); cbv beta iota; rewrite bind_ret_result; cbn [fst snd].
  - erewrite generate_figures_raises; [done | | | by rewrite Hempty].
    + rewrite lookup_app_l by (rewrite length_app; simpl; lia). by apply lookup_snoc.
    + apply lookup_snoc. rewrite length_app; simpl; lia.
  - erewrite generate_figures_raises; [done | | | by rewrite Hempty].
    + rewrite lookup_app_l by (rewrite !length_app; simpl; lia).
      apply lookup_snoc. rewrite length_app; simpl; lia.
    + apply lookup_snoc. rewrite !length_app; simpl; lia.
Qed.

Lemma update_plots_raises_on_empty_selection_witness :
  ∃ e, (update_plots "Other" sample_store).1 = Raise e.
Proof.
  exact (update_plots_raises_on_empty_selection sample_store _ "Other" eq_refl eq_refl).
Defined.

(** ** Further properties of the binning *)

Lemma cut_column (x0 : Z) (xs : list Z) :
  cut (x0 :: xs) 3 consumption_levels true
  = Ok ((λ v, Some (equal_width_bin (col_min x0 xs) (col_max x0 xs) v)) <$> (x0 :: xs)).
Proof.
  unfold cut, nbins_to_bins. cbn [Nat.ltb Nat.leb].
  fold (col_min x0 xs). fold (col_max x0 xs).
  destruct (Z.eqb_spec (col_min x0 xs) (col_max x0 xs)) as [Heq | Hne].
  - f_equal. apply list_fmap_ext. intros i v Hv%list_elem_of_lookup_2%col_bounds.
    unfold equal_width_bin. rewrite Heq, Z.eqb_refl.
    assert (v = col_max x0 xs) as -> by lia. apply cut_degenerate.
  - rewrite linspace_4. f_equal. apply list_fmap_ext.
    intros i v Hv%list_elem_of_lookup_2%col_bounds.
    apply cut_proper; [| done].
    assert (x0 ∈ x0 :: xs) as H0%col_bounds by by left. lia.
Qed.

Lemma col_min_attained x0 xs : col_min x0 xs ∈ x0 :: xs.
Proof.
  unfold col_min. induction xs as [| y ys IH]; cbn; [by left |].
  destruct (Z.min_spec y (foldr Z.min x0 ys)) as [[_ ->] | [_ ->]].
  - right. by left.
  - apply elem_of_cons in IH as [-> | IH]; [by left | by do 2 right].
Qed.

Lemma col_max_attained x0 xs : col_max x0 xs ∈ x0 :: xs.
Proof.
  unfold col_max. induction xs as [| y ys IH]; cbn; [by left |].
  destruct (Z.max_spec y (foldr Z.max x0 ys)) as [[_ ->] | [_ ->]].
  - apply elem_of_cons in IH as [-> | IH]; [by left | by do 2 right].
  - right. by left.
Qed.

Lemma equal_width_bin_mono mn mx v1 v2 :
  v1 ≤ v2 →
  level_code (equal_width_bin mn mx v1) ≤ level_code (equal_width_bin mn mx v2).
Proof.
  intros Hv. unfold equal_width_bin.
  destruct (mn =? mx); [done |].
  destruct (Z.leb_spec (3 * (v1 - mn)) (mx - mn)), (Z.leb_spec (3 * (v2 - mn)) (mx - mn)),
    (Z.leb_spec (3 * (v1 - mn)) (2 * (mx - mn))), (Z.leb_spec (3 * (v2 - mn)) (2 * (mx - mn)));
    cbn; lia.
Qed.

Lemma cut_rows_lookup (rows : list Row) labels i r :
  cut (consumptionlevel <$> rows) 3 consumption_levels true = Ok labels →
  rows !! i = Some r →
  ∃ x0 xs,
    consumptionlevel <$> rows = x0 :: xs ∧
    labels !! i
    = Some (Some (equal_width_bin (col_min x0 xs) (col_max x0 xs) (consumptionlevel r))).
Proof.
  intros Hcut Hi. destruct (consumptionlevel <$> rows) as [| x0 xs] eqn:Hcol.
  { apply (f_equal length) in Hcol. rewrite length_fmap in Hcol.
    apply lookup_lt_Some in Hi. cbn in Hcol. lia. }
  exists x0, xs. split; [done |]. rewrite cut_column, <- Hcol in Hcut.
  assert (labels = (λ v, Some (equal_width_bin (col_min x0 xs) (col_max x0 xs) v))
                     <$> (consumptionlevel <$> rows)) as -> by congruence.
  by rewrite <- list_fmap_compose, list_lookup_fmap, Hi.
Qed.

(** X6. The binning keeps the order of the levels: in one table, a row with a
    consumption level not above another row's gets a label not above the
    other's (Low < Medium < High), and no row gets a missing label. *)
Theorem binning_keeps_order (rows : list Row) (labels : list (option Level))
    (i j : nat) (ri rj : Row) :
  cut (consumptionlevel <$> rows) 3 consumption_levels true = Ok labels →
  rows !! i = Some ri →
  rows !! j = Some rj →
  consumptionlevel ri ≤ consumptionlevel rj →
  ∃ li lj,
    labels !! i = Some (Some li) ∧ labels !! j = Some (Some lj) ∧
    level_code li ≤ level_code lj.
Proof.
  intros Hcut Hi Hj Hle.
  destruct (cut_rows_lookup _ _ _ _ Hcut Hi) as (x0 & xs & Hcol & Hli).
  destruct (cut_rows_lookup _ _ _ _ Hcut Hj) as (x0' & xs' & Hcol' & Hlj).
  rewrite Hcol in Hcol'. injection Hcol' as <- <-.
  eexists _, _. split; [exact Hli |]. split; [exact Hlj |].
  by apply equal_width_bin_mono.
Qed.

Lemma binning_keeps_order_witness :
  ∃ li lj,
    [Some Low; Some Low; Some High] !! 1%nat = Some (Some li) ∧
    [Some Low; Some Low; Some High] !! 2%nat = Some (Some lj) ∧
    level_code li ≤ level_code lj.
Proof.
  apply (binning_keeps_order [level_row 1; level_row 2; level_row 5] _ 1 2
           (level_row 2) (level_row 5)); [reflexivity | reflexivity | reflexivity |].
  simpl. lia.
Defined.

(** X7. In a table with at least two distinct consumption levels, the rows with
    the smallest level are labelled Low and those with the largest High. *)
Theorem binning_extremes (rows : list Row) (labels : list (option Level))
    (i j : nat) (ri rj : Row) :
  cut (consumptionlevel <$> rows) 3 consumption_levels true = Ok labels →
  rows !! i = Some ri →
  rows !! j = Some rj →
  (∀ r, r ∈ rows → consumptionlevel ri ≤ consumptionlevel r ≤ consumptionlevel rj) →
  consumptionlevel ri < consumptionlevel rj →
  labels !! i = Some (Some Low) ∧ labels !! j = Some (Some High).
Proof.
  intros Hcut Hi Hj Hall Hlt.
  destruct (cut_rows_lookup _ _ _ _ Hcut Hi) as (x0 & xs & Hcol & Hli).
  destruct (cut_rows_lookup _ _ _ _ Hcut Hj) as (x0' & xs' & Hcol' & Hlj).
  rewrite Hcol in Hcol'. injection Hcol' as <- <-.
  assert (∀ v, v ∈ x0 :: xs → consumptionlevel ri ≤ v ≤ consumptionlevel rj) as Hall'.
  { intros v Hv. rewrite <- Hcol in Hv. apply list_elem_of_fmap in Hv as (r & -> & Hr).
    by apply Hall. }
  assert (consumptionlevel ri ∈ x0 :: xs) as Hmin%col_bounds.
  { rewrite <- Hcol. by eapply list_elem_of_fmap_2, list_elem_of_lookup_2. }
  assert (consumptionlevel rj ∈ x0 :: xs) as Hmax%col_bounds.
  { rewrite <- Hcol. by eapply list_elem_of_fmap_2, list_elem_of_lookup_2. }
  pose proof (Hall' _ (col_min_attained x0 xs)) as Hmn.
  pose proof (Hall' _ (col_max_attained x0 xs)) as Hmx.
  assert (col_min x0 xs = consumptionlevel ri) as Emn by lia.
  assert (col_max x0 xs = consumptionlevel rj) as Emx by lia.
  rewrite Hli, Hlj, Emn, Emx. unfold equal_width_bin.
  destruct (Z.eqb_spec (consumptionlevel ri) (consumptionlevel rj)); [lia |].
  split; do 2 f_equal.
  - destruct (Z.leb_spec (3 * (consumptionlevel ri - consumptionlevel ri))
                (consumptionlevel rj - consumptionlevel ri)); [done | lia].
  - destruct (Z.leb_spec (3 * (consumptionlevel rj - consumptionlevel ri))
                (consumptionlevel rj - consumptionlevel ri)); [lia |].
    destruct (Z.leb_spec (3 * (consumptionlevel rj - consumptionlevel ri))
                (2 * (consumptionlevel rj - consumptionlevel ri))); [lia | done].
Qed.

Lemma binning_extremes_witness :
  [Some Low; Some Medium; Some High] !! 0%nat = Some (Some Low) ∧
  [Some Low; Some Medium; Some High] !! 2%nat = Some (Some High).
Proof.
  apply (binning_extremes [level_row 1; level_row 2; level_row 3] _ 0 2
           (level_row 1) (level_row 3)); [reflexivity | reflexivity | reflexivity | |].
  - intros r Hr. repeat (apply elem_of_cons in Hr as [-> | Hr]; [simpl; lia |]).
    by apply elem_of_nil in Hr.
  - simpl. lia.
Defined.

(** X8. When the levels of a table lie in 1-5 and both 1 and 5 occur, the
    binning is the one over the fixed range 1-5: levels 1 and 2 are Low,
    3 is Medium, 4 and 5 are High. *)
Theorem binning_on_full_range (rows : list Row) :
  (∀ r, r ∈ rows → 1 ≤ consumptionlevel r ≤ 5) →
  (∃ r, r ∈ rows ∧ consumptionlevel r = 1) →
  (∃ r, r ∈ rows ∧ consumptionlevel r = 5) →
  cut (consumptionlevel <$> rows) 3 consumption_levels true
  = Ok ((λ r, Some (fixed_range_bin (consumptionlevel r))) <$> rows) ∧
  ∀ r, r ∈ rows →
    fixed_range_bin (consumptionlevel r)
    = if consumptionlevel r <=? 2 then Low
      else if consumptionlevel r =? 3 then Medium else High.
Proof.
  intros Hall (r1 & Hr1 & H1) (r5 & Hr5 & H5). split.
  - destruct (consumptionlevel <$> rows) as [| x0 xs] eqn:Hcol.
    { apply (f_equal length) in Hcol. rewrite length_fmap in Hcol.
      destruct rows; [by apply elem_of_nil in Hr1 | done]. }
    assert (∀ v, v ∈ x0 :: xs → 1 ≤ v ≤ 5) as Hall'.
    { intros v Hv. rewrite <- Hcol in Hv. apply list_elem_of_fmap in Hv as (r & -> & Hr).
      by apply Hall. }
    assert (1 ∈ x0 :: xs) as Hmin%col_bounds.
    { rewrite <- Hcol, <- H1. by apply list_elem_of_fmap_2. }
    assert (5 ∈ x0 :: xs) as Hmax%col_bounds.
    { rewrite <- Hcol, <- H5. by apply list_elem_of_fmap_2. }
    pose proof (Hall' _ (col_min_attained x0 xs)) as Hmn.
    pose proof (Hall' _ (col_max_attained x0 xs)) as Hmx.
    rewrite cut_column. assert (col_min x0 xs = 1) as -> by lia.
    assert (col_max x0 xs = 5) as -> by lia.
    by rewrite <- Hcol, <- list_fmap_compose.
  - intros r Hr%Hall.
    assert (consumptionlevel r = 1 ∨ consumptionlevel r = 2 ∨ consumptionlevel r = 3
            ∨ consumptionlevel r = 4 ∨ consumptionlevel r = 5) as Hc by lia.
    destruct Hc as [-> | [-> | [-> | [-> | ->]]]]; reflexivity.
Qed.

Lemma binning_on_full_range_witness :
  cut (consumptionlevel <$> [level_row 5; level_row 3; level_row 1]) 3 consumption_levels true
  = Ok [Some High; Some Medium; Some Low].
Proof.
  refine (proj1 (binning_on_full_range [level_row 5; level_row 3; level_row 1] _ _ _)).
  - intros r Hr. repeat (apply elem_of_cons in Hr as [-> | Hr]; [simpl; lia |]).
    by apply elem_of_nil in Hr.
  - exists (level_row 1). split; [by do 2 right; left | reflexivity].
  - exists (level_row 5). split; [by left | reflexivity].
Defined.

Lemma zip_fmap_same {A B C} (f : A → B) (g : A → C) (l : list A) :
  zip (f <$> l) (g <$> l) = (λ a, (f a, g a)) <$> l.
Proof. induction l as [| a l IH]; [done |]. cbn. by rewrite IH. Qed.

(** X9. When [generate_figures] returns, the box chart is drawn from one point
    per row of the FilteredTable, in row order: the row's bin label, never
    missing, against the row's GPA. *)
Theorem box_chart_has_one_point_per_row (σ : Store) (fr gr : ref) fd g figs σ' :
  σ !! fr = Some (ObjFrame fd) →
  σ !! gr = Some (ObjGrouped g) →
  generate_figures fr gr σ = (Ok figs, σ') →
  ∃ x0 xs,
    consumptionlevel <$> df_rows fd = x0 :: xs ∧
    fig_data (box figs)
    = BoxData ((λ r, (Some (equal_width_bin (col_min x0 xs) (col_max x0 xs)
                              (consumptionlevel r)), GPA r)) <$> df_rows fd).
Proof.
  intros Hfr Hgr Hrun.
  unfold generate_figures, bind, read_frame, read_grouped, lift, write_frame, ret in Hrun.
  rewrite Hfr, Hgr in Hrun.
  destruct (consumptionlevel <$> df_rows fd) as [| x0 xs] eqn:Hcol; [discriminate Hrun |].
  exists x0, xs. split; [done |]. rewrite cut_column, <- Hcol in Hrun.
  rewrite list_lookup_insert_eq in Hrun by (by eapply lookup_lt_Some).
  injection Hrun as <- _. cbn [box fig_data df_rows df_consumption_level set_consumption_level default].
  by rewrite <- list_fmap_compose, zip_fmap_same.
Qed.

Lemma box_chart_has_one_point_per_row_witness :
  ∃ figs σ',
    generate_figures 1 2 sample_engine_store = (Ok figs, σ') ∧
    fig_data (box figs) = BoxData [(Some Low, 70); (Some Low, 55); (Some High, 60)].
Proof.
  destruct (generate_figures 1 2 sample_engine_store) as [[figs | e] σ'] eqn:Hrun;
    [| discriminate Hrun].
  exists figs, σ'. split; [reflexivity |].
  destruct (box_chart_has_one_point_per_row sample_engine_store 1 2 _ _ figs σ'
              eq_refl eq_refl Hrun) as (x0 & xs & Hcol & Hbox).
  injection Hcol as <- <-. exact Hbox.
Defined.

(** ** Further properties of the aggregations *)

Lemma mean_None (l : list Z) : mean l = None ↔ l = [].
Proof. by destruct l. Qed.

Lemma sum_bounds (a b : Z) (l : list Z) :
  (∀ x, x ∈ l → a ≤ x ≤ b) →
  a * Z.of_nat (length l) ≤ foldr Z.add 0 l ≤ b * Z.of_nat (length l).
Proof.
  induction l as [| x l IH]; intros Hall; [cbn; lia |].
  assert (a ≤ x ≤ b) as Hx by (apply Hall; by left).
  assert (a * Z.of_nat (length l) ≤ foldr Z.add 0 l ≤ b * Z.of_nat (length l)) as IH'.
  { apply IH. intros y Hy. apply Hall. by right. }
  cbn [length foldr]. rewrite Nat2Z.inj_succ, !Z.mul_succ_r. lia.
Qed.

Lemma mean_bounds (a b : Z) (l : list Z) (q : Q) :
  (∀ x, x ∈ l → a ≤ x ≤ b) →
  mean l = Some q →
  (inject_Z a <= q <= inject_Z b)%Q.
Proof.
  intros Hall Hq. pose proof (sum_bounds a b l Hall) as [Hlo Hhi].
  destruct l as [| x l]; [discriminate Hq |]. unfold mean in Hq. injection Hq as <-.
  rewrite Qred_correct. set (n := Z.of_nat (length (x :: l))) in *.
  assert (0 < inject_Z n)%Q as Hn.
  { change 0%Q with (inject_Z 0). rewrite <- Zlt_Qlt. unfold n. cbn [length]. lia. }
  split.
  - apply Qle_shift_div_l; [exact Hn |]. by rewrite <- inject_Z_mult, <- Zle_Qle.
  - apply Qle_shift_div_r; [exact Hn |]. by rewrite <- inject_Z_mult, <- Zle_Qle.
Qed.

Lemma elem_of_group_rows {K} `{EqDecision K} (key_of : Row → option K) k rows r :
  r ∈ group_rows key_of k rows ↔ r ∈ rows ∧ key_of r = Some k.
Proof.
  unfold group_rows. rewrite !list_elem_of_In, filter_In.
  by rewrite bool_decide_eq_true.
Qed.

(** X10. The means of the GroupedTable are never missing and stay within the
    bounds of the rows: with GPA between [lo] and [hi] and consumption
    level between [lo'] and [hi'] on every row of the FilteredTable, so are
    the GPA and the consumption level of every grouped row. *)
Theorem grouped_means_within_bounds (rows : list Row) (lo hi lo' hi' : Z) (g : GroupedRow) :
  (∀ r, r ∈ rows → lo ≤ GPA r ≤ hi ∧ lo' ≤ consumptionlevel r ≤ hi') →
  g ∈ grouped_of rows →
  ∃ y x,
    g_GPA g = Some y ∧ (inject_Z lo <= y <= inject_Z hi)%Q ∧
    g_consumptionlevel g = Some x ∧ (inject_Z lo' <= x <= inject_Z hi')%Q.
Proof.
  intros Hall Hg.
  apply elem_of_grouped_of in Hg as ((r & Hr & Hk) & Hx & _ & _ & Hy).
  assert (r ∈ group_rows key4 (g_key g) rows) as Hin by by apply elem_of_group_rows.
  destruct (g_GPA g) as [y |] eqn:Ey.
  2:{ symmetry in Hy. apply mean_None, fmap_nil_inv in Hy. rewrite Hy in Hin.
      by apply elem_of_nil in Hin. }
  destruct (g_consumptionlevel g) as [x |] eqn:Ex.
  2:{ symmetry in Hx. apply mean_None, fmap_nil_inv in Hx. rewrite Hx in Hin.
      by apply elem_of_nil in Hin. }
  exists y, x. split; [done |]. split.
  { eapply mean_bounds; [| by symmetry]. intros v (r' & -> & Hr')%list_elem_of_fmap.
    apply elem_of_group_rows in Hr' as [Hr' _]. by apply Hall. }
  split; [done |].
  eapply mean_bounds; [| by symmetry]. intros v (r' & -> & Hr')%list_elem_of_fmap.
  apply elem_of_group_rows in Hr' as [Hr' _]. by apply Hall.
Qed.

Lemma grouped_means_within_bounds_witness :
  ∃ g y x,
    grouped_of (df_rows sample_working_table) !! 0%nat = Some g ∧
    g_GPA g = Some y ∧ (inject_Z 0 <= y <= inject_Z 100)%Q ∧
    g_consumptionlevel g = Some x ∧ (inject_Z 1 <= x <= inject_Z 5)%Q.
Proof.
  assert (∃ g, grouped_of (df_rows sample_working_table) !! 0%nat = Some g) as [g Hg]
    by (eexists; reflexivity).
  destruct (grouped_means_within_bounds (df_rows sample_working_table) 0 100 1 5 g)
    as (y & x & Hy & Hby & Hx & Hbx).
  - intros r Hr. cbn in Hr.
    repeat (apply elem_of_cons in Hr as [-> | Hr]; [repeat split; by vm_compute |]).
    by apply elem_of_nil in Hr.
  - by eapply list_elem_of_lookup_2.
  - by exists g, y, x.
Defined.


Lemma key4_leb_total : Total (λ a b : Key4, Is_true (key4_leb a b)).
Proof.
  intros [[[s1 c1] i1] h1] [[[s2 c2] i2] h2]. unfold key4_leb, lex.
  rewrite (String.compare_antisym s1 s2),
    (Z.compare_antisym (studytime_code c2) (studytime_code c1)),
    (String.compare_antisym i1 i2).
  destruct (String.compare s2 s1); cbn; auto.
  destruct (studytime_code c2 ?= studytime_code c1); cbn; auto.
  destruct (String.compare i2 i1); cbn; auto.
  destruct (String.leb_total h1 h2) as [-> | ->]; auto.
Qed.

(** X12. The rows of the GroupedTable come in increasing key order: by sex,
    then by study-time category (in category order), then by internet, then
    by higher education. *)
Theorem grouped_table_is_sorted (rows : list Row) :
  Sorted (λ a b, Is_true (key4_leb a b)) (g_key <$> grouped_of rows).
Proof.
  rewrite g_key_grouped_of. apply Sorted_merge_sort, key4_leb_total.
Qed.

Lemma constant_nodup {A} (v : A) (l : list A) :
  NoDup l → (∀ x, x ∈ l → x = v) → l ≠ [] → l = [v].
Proof.
  intros Hnd Hall Hne. destruct l as [| a [| b l]]; [done | |].
  - f_equal. apply Hall. by left.
  - assert (a = v) as -> by (apply Hall; by left).
    assert (b = v) as -> by (apply Hall; right; by left).
    apply NoDup_cons in Hnd as [Hnotin _]. exfalso. apply Hnotin. by left.
Qed.

Lemma filter_all {A} (p : A → bool) (l : list A) :
  (∀ x, x ∈ l → p x = true) → List.filter p l = l.
Proof.
  induction l as [| a l IH]; intros Hall; [done |]. cbn.
  rewrite (Hall a) by by left. f_equal. apply IH. intros x Hx. apply Hall. by right.
Qed.

Lemma gender_group_keys (rows : list Row) :
  group_keys String.leb (λ r, Some (sex r)) false None rows
  ≡ₚ remove_dups (sex <$> rows).
Proof.
  unfold group_keys. rewrite merge_sort_Permutation. f_equiv.
  induction rows as [| r rows IH]; [done |]. cbn. by rewrite IH.
Qed.

(** X13. With a gender selected that occurs in the Working Table, the bar chart
    is drawn from a single bar: that gender, with the mean consumption level
    and the mean GPA of its rows. *)
Theorem bar_chart_single_gender (rows : list Row) (v : string) :
  (∃ r, r ∈ rows ∧ sex r = v) →
  gender_groups (List.filter (selects v) rows)
  = [(v, mean (consumptionlevel <$> List.filter (selects v) rows),
         mean (GPA <$> List.filter (selects v) rows))].
Proof.
  intros (r0 & Hr0 & Hv). set (F := List.filter (selects v) rows).
  assert (∀ r, r ∈ F → sex r = v) as Hall by (by intros r [_ ?]%elem_of_selected).
  assert (r0 ∈ F) as Hin by by apply elem_of_selected.
  assert (group_keys String.leb (λ r, Some (sex r)) false None F = [v]) as Hkeys.
  { apply constant_nodup.
    - rewrite gender_group_keys. apply NoDup_remove_dups.
    - intros x. rewrite gender_group_keys, elem_of_remove_dups.
      intros (r & -> & Hr)%list_elem_of_fmap. by apply Hall.
    - intros Hnil. assert (v ∈ group_keys String.leb (λ r, Some (sex r)) false None F) as Hk.
      { rewrite gender_group_keys, elem_of_remove_dups, <- Hv. by apply list_elem_of_fmap_2. }
      rewrite Hnil in Hk. by apply elem_of_nil in Hk. }
  unfold gender_groups, groupby. rewrite Hkeys. cbn.
  assert (group_rows (λ r, Some (sex r)) v F = F) as ->; [| done].
  apply filter_all. intros r Hr%Hall. apply bool_decide_eq_true. by rewrite Hr.
Qed.

Lemma bar_chart_single_gender_witness :
  gender_groups (List.filter (selects "Female") (df_rows sample_working_table))
  = [("Female", Some 4%Q, Some 65%Q)].
Proof.
  refine (bar_chart_single_gender (df_rows sample_working_table) "Female" _).
  exists (derive sample_raw). split; [by left | reflexivity].
Defined.

(** X14. With "All" selected on a table whose genders are "Female" and "Male",
    both present, the bar chart is drawn from two bars, "Female" first, each
    with the mean consumption level and the mean GPA of that gender's rows. *)
Theorem bar_chart_two_genders (rows : list Row) :
  (∀ r, r ∈ rows → sex r = "Female" ∨ sex r = "Male") →
  (∃ r, r ∈ rows ∧ sex r = "Female") →
  (∃ r, r ∈ rows ∧ sex r = "Male") →
  gender_groups rows
  = [("Female", mean (consumptionlevel <$> List.filter (selects "Female") rows),
                mean (GPA <$> List.filter (selects "Female") rows));
     ("Male", mean (consumptionlevel <$> List.filter (selects "Male") rows),
              mean (GPA <$> List.filter (selects "Male") rows))].
Proof.
  intros Hall (rf & Hrf & Hf) (rm & Hrm & Hm).
  assert (group_keys String.leb (λ r, Some (sex r)) false None rows = ["Female"; "Male"])
    as Hkeys.
  { apply (Sorted_unique String.le).
    - apply (Sorted_merge_sort String.le).
    - repeat constructor.
    - rewrite gender_group_keys. apply NoDup_Permutation.
      + apply NoDup_remove_dups.
      + apply NoDup_cons. split; [by intros [=]%list_elem_of_singleton | apply NoDup_singleton].
      + intros x. rewrite elem_of_remove_dups, list_elem_of_fmap. split.
        * intros (r & -> & [-> | ->]%Hall); [by left | right; by left].
        * intros [-> | [-> | []%elem_of_nil]%elem_of_cons]%elem_of_cons; eauto. }
  unfold gender_groups, groupby. rewrite Hkeys. cbn.
  assert (∀ v, group_rows (λ r, Some (sex r)) v rows = List.filter (selects v) rows) as Hg.
  { intros v. unfold group_rows. apply filter_ext. intros r.
    apply eq_true_iff_eq. rewrite bool_decide_eq_true, selects_true. naive_solver. }
  by rewrite !Hg.
Qed.

Lemma bar_chart_two_genders_witness :
  gender_groups (df_rows sample_working_table)
  = [("Female", Some 4%Q, Some 65%Q); ("Male", Some 2%Q, Some 55%Q)].
Proof.
  refine (bar_chart_two_genders (df_rows sample_working_table) _ _ _).
  - intros r Hr. cbn in Hr.
    repeat (apply elem_of_cons in Hr as [-> | Hr]; [cbn; auto |]).
    by apply elem_of_nil in Hr.
  - exists (derive sample_raw). split; [by left | reflexivity].
  - exists (derive sample_raw_male). split; [right; by left | reflexivity].
Defined.

Lemma sun_keys rows :
  (grouped_sun rows).*1
  = merge_sort (λ a b, key_sun_leb a b) (remove_dups (omap key_sun rows)).
Proof.
  unfold grouped_sun, groupby, group_keys. rewrite <- !list_fmap_compose.
  rewrite <- (list_fmap_id (merge_sort _ _)) at 2. by apply list_fmap_ext.
Qed.

Lemma sun_keys_perm rows :
  (grouped_sun rows).*1 ≡ₚ remove_dups (omap key_sun rows).
Proof. rewrite sun_keys. apply merge_sort_Permutation. Qed.

(** X15. The sunburst has one sector per (study-time category, internet) pair
    carried by a row of the FilteredTable whose category is not missing, no
    pair twice, and the value of a sector, the mean GPA of the rows with the
    pair, is never missing. *)
Theorem sunburst_sectors (rows : list Row) :
  NoDup (grouped_sun rows).*1 ∧
  (∀ c i, (c, i) ∈ (grouped_sun rows).*1
          ↔ ∃ r, r ∈ rows ∧ studytime r = Some c ∧ internet r = i) ∧
  ∀ c i m, (c, i, m) ∈ grouped_sun rows →
    m = mean (GPA <$> List.filter
                (λ r, bool_decide (studytime r = Some c ∧ internet r = i)) rows) ∧
    m ≠ None.
Proof.
  assert (∀ c i r, key_sun r = Some (c, i) ↔ studytime r = Some c ∧ internet r = i) as Hkey.
  { intros c i r. unfold key_sun. destruct (studytime r) as [c' |].
    - split; [by intros [= -> ->] | by intros [[= ->] ->]].
    - split; [done | by intros [? _]]. }
  split; [rewrite sun_keys_perm; apply NoDup_remove_dups |]. split.
  { intros c i. rewrite sun_keys_perm, elem_of_remove_dups, list_elem_of_omap.
    by setoid_rewrite Hkey. }
  intros c i m Hin.
  assert ((c, i) ∈ (grouped_sun rows).*1) as Hk.
  { apply list_elem_of_fmap. by exists (c, i, m). }
  rewrite sun_keys_perm, elem_of_remove_dups, list_elem_of_omap in Hk.
  destruct Hk as (r & Hr & Hkr).
  unfold grouped_sun, groupby in Hin. rewrite <- list_fmap_compose in Hin.
  apply list_elem_of_fmap in Hin as ([c' i'] & [= <- <- ->] & _). cbn [fst snd].
  assert (group_rows key_sun (c, i) rows
          = List.filter (λ r, bool_decide (studytime r = Some c ∧ internet r = i)) rows) as Hg.
  { unfold group_rows. apply filter_ext. intros r'.
    apply eq_true_iff_eq. by rewrite !bool_decide_eq_true, Hkey. }
  rewrite <- Hg. split; [done |]. intros Hnil%mean_None%fmap_nil_inv.
  assert (r ∈ group_rows key_sun (c, i) rows) as Hin by by apply elem_of_group_rows.
  rewrite Hnil in Hin. by apply elem_of_nil in Hin.
Qed.

(** ** The callback wiring *)

Lemma generate_figures_kinds fr gr (σ : Store) figs σ' :
  generate_figures fr gr σ = (Ok figs, σ') →
  trace_kind <$> (fig_data <$> [sunburst figs; scatter figs; box figs; line figs;
                                bar figs; hist figs; violin figs])
  = ["sunburst"; "scatter"; "box"; "line"; "bar"; "hist"; "violin"].
Proof.
  unfold generate_figures, bind, read_frame, read_grouped, lift, write_frame, ret.
  destruct (σ !! fr) as [[fd | ?] |]; try discriminate.
  destruct (σ !! gr) as [[? | g] |]; try discriminate.
  destruct (cut _ _ _ _) as [col | e]; [| discriminate].
  destruct (_ !! fr) as [[fd' | ?] |]; try discriminate.
  by intros [= <- _].
Qed.

(** X16. The callback is wired to the page as written: its input is the one
    dropdown of the layout, which offers "All", "Male" and "Female" and
    starts on "All"; its outputs are the seven graphs of the layout, each
    once, in page order; and whenever [update_plots] returns, the figure at
    each position is the chart its output is named after. *)
Theorem callback_wiring :
  dropdowns app_layout = [(callback_input.1, ["All"; "Male"; "Female"], "All")] ∧
  callback_outputs.*1 = graph_ids app_layout ∧
  NoDup (graph_ids app_layout) ∧
  ∀ (σ : Store) selection figs σ',
    update_plots selection σ = (Ok figs, σ') →
    Forall2 (λ out fig, String.prefix (trace_kind (fig_data fig)) out.1 = true)
      callback_outputs (returned_figures figs).
Proof.
  split; [reflexivity |]. split; [reflexivity |].
  split; [by apply (bool_decide_unpack _) |].
  intros σ selection figs σ'. unfold update_plots, bind at 1 2, ret.
  destruct (filter_and_group selection σ) as [[tables | e] σ1]; [| discriminate].
  destruct (generate_figures tables.1 tables.2 σ1) as [[fs | e] σ2] eqn:Hrun; [| discriminate].
  intros [= <- _]. apply generate_figures_kinds in Hrun.
  injection Hrun as H1 H2 H3 H4 H5 H6 H7. cbn [returned_figures fst snd callback_outputs].
  repeat (constructor; [by rewrite ?H1, ?H2, ?H3, ?H4, ?H5, ?H6, ?H7 |]). constructor.
Qed.

Lemma callback_wiring_witness :
  ∃ figs σ',
    update_plots "All" sample_store = (Ok figs, σ') ∧
    Forall2 (λ out fig, String.prefix (trace_kind (fig_data fig)) out.1 = true)
      callback_outputs (returned_figures figs).
Proof.
  destruct (update_plots "All" sample_store) as [[figs | e] σ'] eqn:Hrun;
    [| discriminate Hrun].
  exists figs, σ'. split; [reflexivity |].
  exact (proj2 (proj2 (proj2 callback_wiring)) sample_store "All" figs σ' Hrun).
Defined.
